(** * Resume service: schema validation, routes and PDF content

    A shallow embedding of [backend/models/Resume.js] (the Mongoose schema of
    a resume) and of the resume router and its [generatePDFContent] helper
    (the second half of [backend/models/User.js]).

    - JavaScript values that may be absent are [jsval]: [undefined], [null]
      or a value; truthiness and template-literal interpolation follow
      ECMAScript.
    - A Mongoose document is a record whose optional paths are [jsval]s and
      whose arrays are lists (Mongoose arrays are always present).
    - The collection is a finite map from [_id] to document.
    - A PDFKit document is the sequence of calls made on it.
    - What the platform decides (the provider's answer, [JSON.parse], the
      time zone, the locale, Mongoose's update casting) is a field of [Env]. *)

From Stdlib Require Import ZArith String Ascii List QArith DecimalString Lia.
From stdpp Require Import gmap strings sorting.

Open Scope string_scope.
Open Scope list_scope.
Open Scope Z_scope.

(* ===================================================================== *)
(** ** JavaScript values *)
(* ===================================================================== *)

Module Js.

(** A value of type [A], or one of the two JavaScript non-values. *)
Inductive jsval (A : Type) : Type :=
| JUndefined
| JNull
| JVal (a : A).
Arguments JUndefined {A}.
Arguments JNull {A}.
Arguments JVal {A} a.

(** [ToBoolean] on an optional string: only a non-empty string is truthy. *)
Definition truthy_str (v : jsval string) : bool :=
  match v with
  | JVal s => negb (String.eqb s "")
  | _ => false
  end.

(** [ToBoolean] on an optional boolean. *)
Definition truthy_bool (v : jsval bool) : bool :=
  match v with
  | JVal b => b
  | _ => false
  end.

(** [ToBoolean] on an optional object (a Date, a nested object): every
    object is truthy. *)
Definition truthy_obj {A} (v : jsval A) : bool :=
  match v with
  | JVal _ => true
  | _ => false
  end.

(** [ToString] as a template literal applies it to an optional string. *)
Definition str_of (v : jsval string) : string :=
  match v with
  | JUndefined => "undefined"
  | JNull => "null"
  | JVal s => s
  end.

(** The double quote and the line feed, as one-character strings. *)
Definition dq : string := String (ascii_of_nat 34) EmptyString.
Definition nl : string := String (ascii_of_nat 10) EmptyString.

(** [Array.prototype.join] on an array of strings. *)
Definition join (sep : string) (l : list string) : string :=
  String.concat sep l.

(** Decimal rendering of an integer ([Number::toString] on an integer). *)
Definition string_of_Z (z : Z) : string :=
  NilZero.string_of_int (Z.to_int z).

(** White space and line terminators that fit in one byte
    ([String.prototype.trim] strips these, and some non-ASCII ones). *)
Definition is_space (c : ascii) : bool :=
  let n := nat_of_ascii c in
  (Nat.eqb n 9 || Nat.eqb n 10 || Nat.eqb n 11 || Nat.eqb n 12
   || Nat.eqb n 13 || Nat.eqb n 32)%bool.

Fixpoint trim_start (s : string) : string :=
  match s with
  | String c s' => if is_space c then trim_start s' else s
  | EmptyString => EmptyString
  end.

Fixpoint rev_string (s acc : string) : string :=
  match s with
  | String c s' => rev_string s' (String c acc)
  | EmptyString => acc
  end.

Definition trim_end (s : string) : string :=
  rev_string (trim_start (rev_string s "")) "".

Definition trim (s : string) : string := trim_end (trim_start s).

(** *** Dates

    A time value is a number of milliseconds since the epoch, or NaN
    (an invalid date).  A Date stored by Mongoose is always valid, so a
    stored date is a [Z]. *)
Inductive number : Type :=
| NaN
| Num (z : Z).

Definition number_to_string (n : number) : string :=
  match n with
  | NaN => "NaN"
  | Num z => string_of_Z z
  end.

Definition msPerDay : Z := 86400000.

(** [Day(t)] of ECMAScript. *)
Definition Day (t : Z) : Z := t / msPerDay.

(** [DayFromYear(y)] of ECMAScript: the day number of January 1st. *)
Definition DayFromYear (y : Z) : Z :=
  365 * (y - 1970) + (y - 1969) / 4 - (y - 1901) / 100 + (y - 1601) / 400.

(** The year a day falls in: the largest [y] with [DayFromYear y <= d].
    The mean-year estimate is off by at most one. *)
Definition YearFromDay (d : Z) : Z :=
  let y := 1970 + (400 * d) / 146097 in
  if d <? DayFromYear y then y - 1
  else if DayFromYear (y + 1) <=? d then y + 1
  else y.

(** [YearFromTime(t)] of ECMAScript. *)
Definition YearFromTime (t : Z) : Z := YearFromDay (Day t).

(** [new Date(v)] for [v] a stored date, [null] or [undefined]:
    a Date is copied, [null] converts to 0, [undefined] to NaN. *)
Definition new_Date (v : jsval Z) : number :=
  match v with
  | JUndefined => NaN
  | JNull => Num 0
  | JVal t => Num t
  end.

End Js.
Export Js.

(* ===================================================================== *)
(** ** The resume schema ([backend/models/Resume.js]) *)
(* ===================================================================== *)

(** A MongoDB [ObjectId]. *)
Definition ObjectId : Type := N.

Module PersonalInfo.
Record t : Type := mk {
  fullName : jsval string;   (* required *)
  email : jsval string;      (* required *)
  phone : jsval string;
  address : jsval string;
  linkedin : jsval string;
  website : jsval string;
  summary : jsval string
}.
End PersonalInfo.

Module Experience.
Record t : Type := mk {
  company : jsval string;    (* required *)
  position : jsval string;   (* required *)
  startDate : jsval Z;       (* required *)
  endDate : jsval Z;
  current : jsval bool;      (* default false *)
  description : jsval string;
  achievements : list string;
  skills : list string
}.
End Experience.

Module Education.
Record t : Type := mk {
  institution : jsval string;  (* required *)
  degree : jsval string;       (* required *)
  field : jsval string;
  startDate : jsval Z;         (* required *)
  endDate : jsval Z;
  gpa : jsval string;
  honors : list string
}.
End Education.

Module Skills.
Record t : Type := mk {
  technical : list string;
  soft : list string;
  languages : list string
}.
End Skills.

Module Project.
Record t : Type := mk {
  name : jsval string;         (* required *)
  description : jsval string;
  technologies : list string;
  link : jsval string;
  startDate : jsval Z;
  endDate : jsval Z
}.
End Project.

Module Certification.
Record t : Type := mk {
  name : jsval string;         (* required *)
  issuer : jsval string;
  date : jsval Z;
  expiryDate : jsval Z;
  link : jsval string
}.
End Certification.

Module Accessibility.
Record t : Type := mk {
  disabilityType : jsval string;
  accommodations : list string;
  accessibilityPreferences : list string
}.
End Accessibility.

Module Resume.

Record t : Type := mk {
  userId : jsval ObjectId;     (* required *)
  personalInfo : PersonalInfo.t;
  experience : list Experience.t;
  education : list Education.t;
  skills : jsval Skills.t;
  projects : list Project.t;
  certifications : list Certification.t;
  accessibility : Accessibility.t;
  template : jsval string;     (* enum, default 'modern' *)
  aiGenerated : jsval bool;    (* default false *)
  aiPrompt : jsval string;
  isActive : jsval bool        (* default true *)
}.

Definition set_userId (v : jsval ObjectId) (r : t) : t :=
  mk v (personalInfo r) (experience r) (education r) (skills r)
     (projects r) (certifications r) (accessibility r) (template r)
     (aiGenerated r) (aiPrompt r) (isActive r).

Definition set_experience (v : list Experience.t) (r : t) : t :=
  mk (userId r) (personalInfo r) v (education r) (skills r)
     (projects r) (certifications r) (accessibility r) (template r)
     (aiGenerated r) (aiPrompt r) (isActive r).

Definition set_template (v : jsval string) (r : t) : t :=
  mk (userId r) (personalInfo r) (experience r) (education r) (skills r)
     (projects r) (certifications r) (accessibility r) v
     (aiGenerated r) (aiPrompt r) (isActive r).

Definition set_aiGenerated (v : jsval bool) (r : t) : t :=
  mk (userId r) (personalInfo r) (experience r) (education r) (skills r)
     (projects r) (certifications r) (accessibility r) (template r)
     v (aiPrompt r) (isActive r).

Definition set_aiPrompt (v : jsval string) (r : t) : t :=
  mk (userId r) (personalInfo r) (experience r) (education r) (skills r)
     (projects r) (certifications r) (accessibility r) (template r)
     (aiGenerated r) v (isActive r).

Definition set_isActive (v : jsval bool) (r : t) : t :=
  mk (userId r) (personalInfo r) (experience r) (education r) (skills r)
     (projects r) (certifications r) (accessibility r) (template r)
     (aiGenerated r) (aiPrompt r) v.

(** The values of the [template] enum. *)
Definition template_enum : list string :=
  ["modern"; "classic"; "creative"; "minimal"].

(** *** Defaults

    Constructing a document fills the paths that declare a [default] and
    are [undefined]. *)
Definition default_to {A} (d : A) (v : jsval A) : jsval A :=
  match v with
  | JUndefined => JVal d
  | _ => v
  end.

Definition experience_defaults (e : Experience.t) : Experience.t :=
  Experience.mk (Experience.company e) (Experience.position e)
    (Experience.startDate e) (Experience.endDate e)
    (default_to false (Experience.current e))
    (Experience.description e) (Experience.achievements e)
    (Experience.skills e).

Definition apply_defaults (r : t) : t :=
  mk (userId r) (personalInfo r) (map experience_defaults (experience r))
     (education r) (skills r) (projects r) (certifications r)
     (accessibility r)
     (default_to "modern" (template r))
     (default_to false (aiGenerated r))
     (aiPrompt r)
     (default_to true (isActive r)).

(** *** Validators *)

Inductive error_kind : Type :=
| Required
| EnumMismatch (value : string)
| CastError (message : string).

Record ValidatorError : Type := mkError {
  path : string;
  kind : error_kind
}.

(** Mongoose's [required] check of a String path: the value is a string
    of non-zero length.  No path of this schema sets [trim]. *)
Definition checkRequired_string (v : jsval string) : bool :=
  match v with
  | JVal s => negb (Nat.eqb (String.length s) 0)
  | _ => false
  end.

(** Mongoose's [required] check of a Date or ObjectId path: a value is
    there. *)
Definition checkRequired_present {A} (v : jsval A) : bool :=
  match v with
  | JVal _ => true
  | _ => false
  end.

Definition required_string (p : string) (v : jsval string)
  : list ValidatorError :=
  if checkRequired_string v then [] else [mkError p Required].

Definition required_present {A} (p : string) (v : jsval A)
  : list ValidatorError :=
  if checkRequired_present v then [] else [mkError p Required].

(** The [enum] validator passes on [null] and [undefined]. *)
Definition enum_string (p : string) (values : list string)
    (v : jsval string) : list ValidatorError :=
  match v with
  | JVal s =>
      if existsb (String.eqb s) values then []
      else [mkError p (EnumMismatch s)]
  | _ => []
  end.

(** The path of a field of the [i]-th element of an array of
    subdocuments, as in [experience.0.company]. *)
Definition sub_path (arr : string) (i : nat) (fld : string) : string :=
  arr +:+ "." +:+ string_of_Z (Z.of_nat i) +:+ "." +:+ fld.

Definition validate_personalInfo (p : PersonalInfo.t)
  : list ValidatorError :=
  required_string "personalInfo.fullName" (PersonalInfo.fullName p)
  ++ required_string "personalInfo.email" (PersonalInfo.email p).

Definition validate_experience (i : nat) (e : Experience.t)
  : list ValidatorError :=
  required_string (sub_path "experience" i "company") (Experience.company e)
  ++ required_string (sub_path "experience" i "position")
       (Experience.position e)
  ++ required_present (sub_path "experience" i "startDate")
       (Experience.startDate e).

Definition validate_education (i : nat) (e : Education.t)
  : list ValidatorError :=
  required_string (sub_path "education" i "institution")
    (Education.institution e)
  ++ required_string (sub_path "education" i "degree") (Education.degree e)
  ++ required_present (sub_path "education" i "startDate")
       (Education.startDate e).

Definition validate_project (i : nat) (p : Project.t)
  : list ValidatorError :=
  required_string (sub_path "projects" i "name") (Project.name p).

Definition validate_certification (i : nat) (c : Certification.t)
  : list ValidatorError :=
  required_string (sub_path "certifications" i "name")
    (Certification.name c).

(** All validator errors of a document: validation collects every
    failing path.  The list is in the order of the schema; the order in
    which Mongoose reports several errors may differ, which shows only in
    the text of a message that carries more than one. *)
Definition validateSync (r : t) : list ValidatorError :=
  required_present "userId" (userId r)
  ++ validate_personalInfo (personalInfo r)
  ++ concat (imap validate_experience (experience r))
  ++ concat (imap validate_education (education r))
  ++ concat (imap validate_project (projects r))
  ++ concat (imap validate_certification (certifications r))
  ++ enum_string "template" template_enum (template r).

(** The message of a validator error. *)
(** The arrays of subdocuments of the schema. *)
Definition array_paths : list string :=
  ["experience"; "education"; "projects"; "certifications"].

(** The text after the first dot of a path. *)
Definition after_dot (p : string) : string :=
  match String.index 0 "." p with
  | Some i => String.substring (S i) (String.length p - S i) p
  | None => p
  end.

(** The path a validator names in its message.  An entry of an array is
    validated as a document of its own, so its validators name the path
    inside the entry ([company] for [experience.1.company]); the other
    paths are named in full. *)
Definition message_path (p : string) : string :=
  if existsb (fun a => String.prefix (a +:+ ".") p) array_paths
  then after_dot (after_dot p)
  else p.

Definition error_message (e : ValidatorError) : string :=
  match kind e with
  | Required => "Path `" +:+ message_path (path e) +:+ "` is required."
  | EnumMismatch v =>
      "`" +:+ v +:+ "` is not a valid enum value for path `"
      +:+ message_path (path e) +:+ "`."
  | CastError m => m
  end.

(** The message of the ValidationError that carries [errs]. *)
Definition validation_message (prefix : string)
    (errs : list ValidatorError) : string :=
  prefix +:+ ": "
  +:+ join ", " (map (fun e => path e +:+ ": " +:+ error_message e) errs).

(** The message of the error an update throws.  The update is cast before
    its validators run, and the first value that cannot be cast throws
    its CastError as it is; otherwise the errors of the update validators
    come in one ValidationError. *)
Definition is_cast_error (e : ValidatorError) : bool :=
  match kind e with
  | CastError _ => true
  | _ => false
  end.

Definition update_error_message (errs : list ValidatorError) : string :=
  match List.find is_cast_error errs with
  | Some e => error_message e
  | None => validation_message "Validation failed" errs
  end.

End Resume.

(* ===================================================================== *)
(** ** The platform *)
(* ===================================================================== *)

#[local] Set Warnings "-register-all".

(** A parsed JSON text. *)
Inductive json : Type :=
| J_null
| J_bool (b : bool)
| J_number (q : Q)
| J_string (s : string)
| J_array (items : list json)
| J_object (members : list (string * json)).

(** The answer of the provider to one [generateContent] call. *)
Inductive provider_result : Type :=
| Rejects (message : string)
| Returns (text : string).

(** What the handlers get from the platform they run on. *)
Record Env : Type := mkEnv {
  (** offset of local time from UTC at a time value, in milliseconds *)
  LocalTZA : Z -> Z;
  (** [Date.prototype.toLocaleDateString] in the host locale *)
  toLocaleDateString : Z -> string;
  (** the generative provider: the text it returns for a prompt *)
  generateContent : string -> provider_result;
  (** [JSON.parse]: [None] when it throws a SyntaxError, which it does
      exactly on a text that is not valid JSON *)
  JSON_parse : string -> option json;
  (** Mongoose's casting of a plain object to the paths of the schema,
      with the cast errors it records for [validate] *)
  castResume : json -> list Resume.ValidatorError * Resume.t;
  (** Mongoose's casting of an update and its update validators
      ([runValidators: true]); they run before the query is sent *)
  validateUpdate : json -> list Resume.ValidatorError;
  (** the effect of a cast update on the document it matches *)
  applyUpdate : json -> Resume.t -> Resume.t;
  (** [process.env.NODE_ENV === 'development'] *)
  development : bool
}.

(* ===================================================================== *)
(** ** PDFKit documents *)
(* ===================================================================== *)

Module PDFKit.

(** A call on a PDFKit document.  [text] records its argument as given
    and the [align] option when one is passed. *)
Inductive call : Type :=
| fontSize (size : Z)
| font (name : string)
| text (s : jsval string) (align : option string)
| moveDown (lines : Q).

(** A document: its construction options and the calls made on it,
    oldest first. *)
Record PDFDocument : Type := mkDoc {
  size : string;
  margin : Z;
  calls : list call
}.

Definition new_PDFDocument (size : string) (margin : Z) : PDFDocument :=
  mkDoc size margin [].

Definition invoke (c : call) (doc : PDFDocument) : PDFDocument :=
  mkDoc (size doc) (margin doc) (calls doc ++ [c]).

End PDFKit.
Import PDFKit.

(** [doc |> f |> g] reads as the chain [doc.f().g()]. *)
Notation "d |> f" := (f d) (at level 45, left associativity, only parsing).

(* ===================================================================== *)
(** ** [generatePDFContent] ([backend/models/User.js], the router part) *)
(* ===================================================================== *)

Section Rendering.

Variable env : Env.

Definition do_fontSize (n : Z) := invoke (fontSize n).
Definition do_font (f : string) := invoke (font f).
Definition do_text (s : jsval string) := invoke (text s None).
Definition do_text_center (s : jsval string) :=
  invoke (text s (Some "center")).
Definition do_moveDown (q : Q) := invoke (moveDown q).

(** [if (c) { body }] on a document. *)
Definition when (c : bool) (body : PDFDocument -> PDFDocument)
    (doc : PDFDocument) : PDFDocument :=
  if c then body doc else doc.

(** [arr.forEach(x => body)] on a document. *)
Definition forEach {A} (arr : list A)
    (body : A -> PDFDocument -> PDFDocument) (doc : PDFDocument)
  : PDFDocument :=
  fold_left (fun d x => body x d) arr doc.

(** [arr && arr.length > 0] *)
Definition non_empty {A} (arr : list A) : bool :=
  (0 <? Z.of_nat (length arr))%Z.

(** [new Date(v).getFullYear()]: the year in local time, NaN for an
    invalid date. *)
Definition getFullYear (n : number) : number :=
  match n with
  | NaN => NaN
  | Num t => Num (YearFromTime (t + LocalTZA env t))
  end.

(** [new Date(v).toLocaleDateString()] *)
Definition localeDateString (n : number) : string :=
  match n with
  | NaN => "Invalid Date"
  | Num t => toLocaleDateString env t
  end.

(** The mis-encoded bullet of the source, as its bytes. *)
Definition bullet : string := "â€¢ ".

Definition header (p : PersonalInfo.t) (doc : PDFDocument) : PDFDocument :=
  doc
  |> do_fontSize 24 |> do_font "Helvetica-Bold"
  |> do_text_center (PersonalInfo.fullName p)
  |> do_fontSize 12 |> do_font "Helvetica"
  |> do_text_center (PersonalInfo.email p)
  |> when (truthy_str (PersonalInfo.phone p))
       (do_text_center (PersonalInfo.phone p))
  |> do_moveDown (5 # 10).

Definition summary_section (p : PersonalInfo.t) : PDFDocument -> PDFDocument :=
  when (truthy_str (PersonalInfo.summary p)) (fun doc =>
    doc
    |> do_fontSize 14 |> do_font "Helvetica-Bold"
    |> do_text (JVal "Professional Summary")
    |> do_fontSize 10 |> do_font "Helvetica"
    |> do_text (PersonalInfo.summary p)
    |> do_moveDown (5 # 10)).

(** The date line of an experience entry. *)
Definition experience_dates (e : Experience.t) : string :=
  number_to_string (getFullYear (new_Date (Experience.startDate e)))
  +:+ " - "
  +:+ (if truthy_bool (Experience.current e) then "Present"
       else number_to_string
              (getFullYear (new_Date (Experience.endDate e)))).

Definition experience_entry (e : Experience.t) (doc : PDFDocument)
  : PDFDocument :=
  doc
  |> do_fontSize 12 |> do_font "Helvetica-Bold"
  |> do_text (JVal (str_of (Experience.position e) +:+ " at "
                    +:+ str_of (Experience.company e)))
  |> do_fontSize 10 |> do_font "Helvetica"
  |> do_text (JVal (experience_dates e))
  |> when (truthy_str (Experience.description e))
       (do_text (Experience.description e))
  |> when (non_empty (Experience.achievements e))
       (forEach (Experience.achievements e)
          (fun achievement => do_text (JVal (bullet +:+ achievement))))
  |> do_moveDown (3 # 10).

Definition experience_section (l : list Experience.t)
  : PDFDocument -> PDFDocument :=
  when (non_empty l) (fun doc =>
    doc
    |> do_fontSize 14 |> do_font "Helvetica-Bold"
    |> do_text (JVal "Professional Experience")
    |> forEach l experience_entry).

Definition education_entry (e : Education.t) (doc : PDFDocument)
  : PDFDocument :=
  doc
  |> do_fontSize 12 |> do_font "Helvetica-Bold"
  |> do_text (JVal (str_of (Education.degree e) +:+ " in "
                    +:+ str_of (Education.field e)))
  |> do_fontSize 10 |> do_font "Helvetica"
  |> do_text (Education.institution e)
  |> when (truthy_str (Education.gpa e))
       (do_text (JVal ("GPA: " +:+ str_of (Education.gpa e))))
  |> do_moveDown (3 # 10).

Definition education_section (l : list Education.t)
  : PDFDocument -> PDFDocument :=
  when (non_empty l) (fun doc =>
    doc
    |> do_fontSize 14 |> do_font "Helvetica-Bold"
    |> do_text (JVal "Education")
    |> forEach l education_entry).

Definition skills_body (s : Skills.t) (doc : PDFDocument) : PDFDocument :=
  doc
  |> do_fontSize 14 |> do_font "Helvetica-Bold"
  |> do_text (JVal "Skills")
  |> when (non_empty (Skills.technical s)) (fun doc =>
       doc
       |> do_fontSize 10 |> do_font "Helvetica"
       |> do_text (JVal ("Technical: " +:+ join ", " (Skills.technical s))))
  |> when (non_empty (Skills.soft s))
       (do_text (JVal ("Soft Skills: " +:+ join ", " (Skills.soft s))))
  |> when (non_empty (Skills.languages s))
       (do_text (JVal ("Languages: " +:+ join ", " (Skills.languages s))))
  |> do_moveDown (5 # 10).

(** [if (skills) { ... }]: the guard is the truthiness of the object. *)
Definition skills_section (s : jsval Skills.t) (doc : PDFDocument)
  : PDFDocument :=
  match s with
  | JVal sk => skills_body sk doc
  | _ => doc
  end.

Definition project_entry (p : Project.t) (doc : PDFDocument)
  : PDFDocument :=
  doc
  |> do_fontSize 12 |> do_font "Helvetica-Bold"
  |> do_text (Project.name p)
  |> when (truthy_str (Project.description p)) (fun doc =>
       doc
       |> do_fontSize 10 |> do_font "Helvetica"
       |> do_text (Project.description p))
  |> when (non_empty (Project.technologies p))
       (do_text (JVal ("Technologies: "
                       +:+ join ", " (Project.technologies p))))
  |> do_moveDown (3 # 10).

Definition projects_section (l : list Project.t)
  : PDFDocument -> PDFDocument :=
  when (non_empty l) (fun doc =>
    doc
    |> do_fontSize 14 |> do_font "Helvetica-Bold"
    |> do_text (JVal "Projects")
    |> forEach l project_entry).

Definition certification_entry (c : Certification.t) (doc : PDFDocument)
  : PDFDocument :=
  doc
  |> do_fontSize 12 |> do_font "Helvetica-Bold"
  |> do_text (Certification.name c)
  |> do_fontSize 10 |> do_font "Helvetica"
  |> do_text (JVal ("Issued by: " +:+ str_of (Certification.issuer c)))
  |> when (truthy_obj (Certification.date c))
       (do_text (JVal ("Date: "
                       +:+ localeDateString
                             (new_Date (Certification.date c)))))
  |> do_moveDown (3 # 10).

Definition certifications_section (l : list Certification.t)
  : PDFDocument -> PDFDocument :=
  when (non_empty l) (fun doc =>
    doc
    |> do_fontSize 14 |> do_font "Helvetica-Bold"
    |> do_text (JVal "Certifications")
    |> forEach l certification_entry).

(** [generatePDFContent(doc, resume)] *)
Definition generatePDFContent (doc : PDFDocument) (resume : Resume.t)
  : PDFDocument :=
  doc
  |> header (Resume.personalInfo resume)
  |> summary_section (Resume.personalInfo resume)
  |> experience_section (Resume.experience resume)
  |> education_section (Resume.education resume)
  |> skills_section (Resume.skills resume)
  |> projects_section (Resume.projects resume)
  |> certifications_section (Resume.certifications resume).

End Rendering.

(* ===================================================================== *)
(** ** The resume router ([backend/models/User.js], the router part) *)
(* ===================================================================== *)

Module Http.

(** The JSON bodies the router sends. *)
Record Body : Type := mkBody {
  status : string;
  message : option string;
  data : option (ObjectId * Resume.t);
  error : option string
}.

Inductive Response : Type :=
| Json (code : Z) (body : Body)
| PdfStream (headers : list (string * string)) (doc : PDFDocument).

Definition error_body (m : string) : Body :=
  mkBody "error" (Some m) None None.

Definition success_data (id : ObjectId) (r : Resume.t) : Body :=
  mkBody "success" None (Some (id, r)) None.

Definition not_found : Response := Json 404 (error_body "Resume not found").

End Http.
Import Http.

(** The state the handlers act on: the [resumes] collection, and the
    prompts sent to the generative provider so far (oldest first). *)
Record World : Type := mkWorld {
  resumes : gmap ObjectId Resume.t;
  providerCalls : list string
}.

Definition set_resumes (c : gmap ObjectId Resume.t) (w : World) : World :=
  mkWorld c (providerCalls w).

Definition log_providerCall (p : string) (w : World) : World :=
  mkWorld (resumes w) (providerCalls w ++ [p]).

Module Model.

(** A query filter [{ _id, userId, isActive? }]. *)
Record Filter : Type := mkFilter {
  f_id : ObjectId;
  f_userId : ObjectId;
  f_isActive : option bool
}.

Definition oid_is (x : ObjectId) (v : jsval ObjectId) : bool :=
  match v with
  | JVal y => N.eqb y x
  | _ => false
  end.

Definition bool_is (b : bool) (v : jsval bool) : bool :=
  match v with
  | JVal c => Bool.eqb c b
  | _ => false
  end.

(** Whether a stored document satisfies the filter's conditions on
    [userId] and [isActive]. *)
Definition matches (q : Filter) (r : Resume.t) : bool :=
  oid_is (f_userId q) (Resume.userId r)
  && match f_isActive q with
     | Some b => bool_is b (Resume.isActive r)
     | None => true
     end.

(** [Resume.findOne(filter)] *)
Definition findOne (q : Filter) (c : gmap ObjectId Resume.t)
  : option Resume.t :=
  match c !! f_id q with
  | Some r => if matches q r then Some r else None
  | None => None
  end.

(** [Resume.findOneAndUpdate(filter, update, { new: true })]: the updated
    document and the collection after the update, or [None] and the
    collection as it was when nothing matches. *)
Definition findOneAndUpdate (q : Filter) (update : Resume.t -> Resume.t)
    (c : gmap ObjectId Resume.t)
  : option Resume.t * gmap ObjectId Resume.t :=
  match findOne q c with
  | Some r => (Some (update r), <[f_id q := update r]> c)
  | None => (None, c)
  end.

(** [resume.save()] of a new document with [_id = id]: the message of
    the error thrown, or the collection with the document inserted.
    [cast_errors] are the errors recorded when the document was built. *)
Definition save (id : ObjectId)
    (cast_errors : list Resume.ValidatorError) (r : Resume.t)
    (c : gmap ObjectId Resume.t) : string + gmap ObjectId Resume.t :=
  match cast_errors ++ Resume.validateSync r with
  | [] =>
      match c !! id with
      | None => inr (<[id := r]> c)
      | Some _ => inl "E11000 duplicate key error"
      end
  | errs => inl (Resume.validation_message "Resume validation failed" errs)
  end.

End Model.
Import Model.

(** Node's check of a header value: [setHeader] throws on a character
    other than TAB, U+0020 to U+007E and U+0080 to U+00FF.  On the bytes
    of a UTF-8 text these are the control bytes, DEL and the lead bytes of
    the characters above U+00FF (0xC4 and up). *)
Definition header_byte_ok (c : ascii) : bool :=
  let n := nat_of_ascii c in
  (Nat.eqb n 9 || Nat.leb 32 n && Nat.leb n 126
   || Nat.leb 128 n && Nat.leb n 195)%bool.

Fixpoint header_value_ok (s : string) : bool :=
  match s with
  | String c s' => header_byte_ok c && header_value_ok s'
  | EmptyString => true
  end.

Section Router.

Variable env : Env.

(** [router.post('/')]: [body] is [req.body], [user] is [req.user.id],
    [oid] the [_id] given to the new document. *)
Definition post_resume (body : json) (user oid : ObjectId) (w : World)
  : Response * World :=
  let '(cast_errors, resumeData) := castResume env body in
  let resume := Resume.apply_defaults (Resume.set_userId (JVal user) resumeData) in
  match save oid cast_errors resume (resumes w) with
  | inr c => (Json 201 (success_data oid resume), set_resumes c w)
  | inl m => (Json 400 (error_body m), w)
  end.

(** [router.get('/:id')] *)
Definition get_resume (id user : ObjectId) (w : World) : Response * World :=
  match findOne (mkFilter id user (Some true)) (resumes w) with
  | None => (not_found, w)
  | Some resume => (Json 200 (success_data id resume), w)
  end.

(** [router.put('/:id')] *)
Definition put_resume (id user : ObjectId) (body : json) (w : World)
  : Response * World :=
  match validateUpdate env body with
  | [] =>
      match findOneAndUpdate (mkFilter id user (Some true))
              (applyUpdate env body) (resumes w) with
      | (None, _) => (not_found, w)
      | (Some resume, c) =>
          (Json 200 (success_data id resume), set_resumes c w)
      end
  | errs => (Json 400 (error_body (Resume.update_error_message errs)), w)
  end.

(** [router.delete('/:id')]: a soft delete. *)
Definition delete_resume (id user : ObjectId) (w : World) : Response * World :=
  match findOneAndUpdate (mkFilter id user None)
          (Resume.set_isActive (JVal false)) (resumes w) with
  | (None, _) => (not_found, w)
  | (Some _, c) =>
      (Json 200 (mkBody "success" (Some "Resume deleted successfully")
                   None None),
       set_resumes c w)
  end.

(** The value of the Content-Disposition header for a resume. *)
Definition content_disposition (resume : Resume.t) : string :=
  "attachment; filename=" +:+ dq
  +:+ str_of (PersonalInfo.fullName (Resume.personalInfo resume))
  +:+ "_Resume.pdf" +:+ dq.

(** [router.get('/:id/pdf')].  When [setHeader] throws on the value of
    Content-Disposition, the [catch] answers 500 with the message of the
    error and no document is written. *)
Definition get_resume_pdf (id user : ObjectId) (w : World) : Response * World :=
  match findOne (mkFilter id user (Some true)) (resumes w) with
  | None => (not_found, w)
  | Some resume =>
      let doc := new_PDFDocument "A4" 50 in
      if header_value_ok (content_disposition resume) then
        (PdfStream
           [("Content-Type", "application/pdf");
            ("Content-Disposition", content_disposition resume)]
           (generatePDFContent env doc resume), w)
      else
        (Json 500
           (error_body
              ("Invalid character in header content [" +:+ dq
               +:+ "Content-Disposition" +:+ dq +:+ "]")), w)
  end.

End Router.

(* ===================================================================== *)
(** ** AI-powered generation ([router.post('/generate')]) *)
(* ===================================================================== *)

Section Generate.

Variable env : Env.

(** The fields the handler reads from [req.body]. *)
Record GenerateRequest : Type := mkGenerateRequest {
  prompt : jsval string;
  req_template : jsval string
}.

Definition lines (l : list string) : string := join nl l.
Definition quoted (s : string) : string := dq +:+ s +:+ dq.

(** The template literal [aiPrompt]. *)
Definition aiPrompt_text (prompt : jsval string) : string :=
  lines [
    "Create a professional resume based on the following information. ";
    "    Format it as a structured JSON object with the following sections:";
    "    - personalInfo (fullName, email, phone, summary)";
    "    - experience (array of work experiences)";
    "    - education (array of educational background)";
    "    - skills (technical, soft, languages)";
    "    - projects (array of relevant projects)";
    "    - certifications (array of certifications)";
    "    ";
    "    User input: " +:+ str_of prompt;
    "    ";
    "    Make it professional, concise, and tailored for job applications. ";
    "    Focus on achievements and measurable results."
  ].

(** The template literal [geminiPrompt]. *)
Definition geminiPrompt_text (aiPrompt : string) : string :=
  lines [
    "You are a professional resume writer. Generate structured resume data in JSON format.";
    "";
    aiPrompt;
    "";
    "Please create a professional resume with the following structure:";
    "{";
    "  " +:+ quoted "personalInfo" +:+ ": {";
    "    " +:+ quoted "fullName" +:+ ": " +:+ quoted "string" +:+ ",";
    "    " +:+ quoted "email" +:+ ": " +:+ quoted "string" +:+ ",";
    "    " +:+ quoted "phone" +:+ ": " +:+ quoted "string" +:+ ",";
    "    " +:+ quoted "summary" +:+ ": " +:+ quoted "string";
    "  },";
    "  " +:+ quoted "experience" +:+ ": [";
    "    {";
    "      " +:+ quoted "company" +:+ ": " +:+ quoted "string" +:+ ",";
    "      " +:+ quoted "position" +:+ ": " +:+ quoted "string" +:+ ",";
    "      " +:+ quoted "startDate" +:+ ": " +:+ quoted "string" +:+ ",";
    "      " +:+ quoted "description" +:+ ": " +:+ quoted "string";
    "    }";
    "  ],";
    "  " +:+ quoted "skills" +:+ ": {";
    "    " +:+ quoted "technical" +:+ ": [" +:+ quoted "string" +:+ "],";
    "    " +:+ quoted "soft" +:+ ": [" +:+ quoted "string" +:+ "]";
    "  }";
    "}";
    "";
    "Make it professional, concise, and tailored for job applications. Focus on achievements and measurable results. Return only valid JSON."
  ].

(** The body sent by the outer [catch]. *)
Definition generation_failed (error_message : string) : Response :=
  Json 500 (mkBody "error" (Some "Failed to generate AI resume") None
              (Some (if development env then error_message
                     else "Internal server error"))).

(** [router.post('/generate')]: [user] is [req.user.id], [oid] the [_id]
    given to the new document. *)
Definition post_generate (req : GenerateRequest) (user oid : ObjectId)
    (w : World) : Response * World :=
  let template := Resume.default_to "modern" (req_template req) in
  if negb (truthy_str (prompt req)) then
    (Json 400 (error_body "Prompt is required for AI generation"), w)
  else
    let geminiPrompt := geminiPrompt_text (aiPrompt_text (prompt req)) in
    let w1 := log_providerCall geminiPrompt w in
    match generateContent env geminiPrompt with
    | Rejects m => (generation_failed m, w1)
    | Returns content =>
        match JSON_parse env content with
        | None =>
            (Json 500 (error_body "Failed to parse AI response"), w1)
        | Some aiGeneratedData =>
            let '(cast_errors, spread) := castResume env aiGeneratedData in
            let resumeData :=
              spread
              |> Resume.set_userId (JVal user)
              |> Resume.set_template template
              |> Resume.set_aiGenerated (JVal true)
              |> Resume.set_aiPrompt (prompt req) in
            let resume := Resume.apply_defaults resumeData in
            match save oid cast_errors resume (resumes w1) with
            | inl m => (generation_failed m, w1)
            | inr c =>
                (Json 201
                   (mkBody "success"
                      (Some "AI-generated resume created successfully")
                      (Some (oid, resume)) None),
                 set_resumes c w1)
            end
        end
    end.

End Generate.

(* ===================================================================== *)
(** ** Observations on documents *)
(* ===================================================================== *)

(** [block] occurs in [l] as a run of consecutive elements. *)
Definition occurs {A} (block l : list A) : Prop :=
  exists pre post, l = pre ++ block ++ post.

(** A step on a document that only adds calls after those made. *)
Definition extends (f : PDFDocument -> PDFDocument) : Prop :=
  forall doc, exists cs,
    f doc = mkDoc (size doc) (margin doc) (calls doc ++ cs).

(** The section titles of a document: the texts written while the font
    size is the heading size 14.  PDFKit starts at size 12. *)
Fixpoint texts_at (heading cur : Z) (cs : list call) : list (jsval string) :=
  match cs with
  | [] => []
  | fontSize n :: cs' => texts_at heading n cs'
  | text s _ :: cs' =>
      if cur =? heading then s :: texts_at heading cur cs'
      else texts_at heading cur cs'
  | _ :: cs' => texts_at heading cur cs'
  end.

Definition section_headings (doc : PDFDocument) : list (jsval string) :=
  texts_at 14 12 (calls doc).

(** Section titles as the specification lists them: summary if present,
    experience, education, projects and certifications if non-empty, and
    skills if any sub-category is non-empty; in that order. *)
Definition spec_sections (r : Resume.t) : list (jsval string) :=
  (if truthy_str (PersonalInfo.summary (Resume.personalInfo r))
   then [JVal "Professional Summary"] else [])
  ++ (match Resume.experience r with
      | [] => [] | _ => [JVal "Professional Experience"] end)
  ++ (match Resume.education r with
      | [] => [] | _ => [JVal "Education"] end)
  ++ (match Resume.skills r with
      | JVal s =>
          match Skills.technical s, Skills.soft s, Skills.languages s with
          | [], [], [] => []
          | _, _, _ => [JVal "Skills"]
          end
      | _ => []
      end)
  ++ (match Resume.projects r with
      | [] => [] | _ => [JVal "Projects"] end)
  ++ (match Resume.certifications r with
      | [] => [] | _ => [JVal "Certifications"] end).

(** The required String paths of a document, in schema order. *)
Definition required_strings (r : Resume.t) : list (jsval string) :=
  [PersonalInfo.fullName (Resume.personalInfo r);
   PersonalInfo.email (Resume.personalInfo r)]
  ++ flat_map (fun e => [Experience.company e; Experience.position e])
       (Resume.experience r)
  ++ flat_map (fun e => [Education.institution e; Education.degree e])
       (Resume.education r)
  ++ map Project.name (Resume.projects r)
  ++ map Certification.name (Resume.certifications r).

(** A string that is there and is not the empty string. *)
Definition non_empty_string (v : jsval string) : Prop :=
  exists s, v = JVal s /\ s <> "".

(** An experience entry with other values of [endDate] and [current]. *)
Definition with_end (endDate : jsval Z) (current : jsval bool)
    (e : Experience.t) : Experience.t :=
  Experience.mk (Experience.company e) (Experience.position e)
    (Experience.startDate e) endDate current
    (Experience.description e) (Experience.achievements e)
    (Experience.skills e).

(* ===================================================================== *)
(** ** Sample data *)
(* ===================================================================== *)

Module Sample.

Definition no_accessibility : Accessibility.t :=
  Accessibility.mk JUndefined [] [].

Definition jane_info : PersonalInfo.t :=
  PersonalInfo.mk (JVal "Jane Doe") (JVal "jane@example.com")
    JUndefined JUndefined JUndefined JUndefined JUndefined.

(** 2021-01-01T00:00:00Z and 2020-01-01T00:00:00Z *)
Definition jan_2021 : Z := 1609459200000.
Definition jan_2020 : Z := 1577836800000.

Definition acme : Experience.t :=
  Experience.mk (JVal "Acme") (JVal "Frontend Engineer") (JVal jan_2021)
    JUndefined (JVal true) JUndefined [] [].

(** An entry that ended a year before it started. *)
Definition backwards : Experience.t :=
  Experience.mk (JVal "Acme") (JVal "Frontend Engineer") (JVal jan_2021)
    (JVal jan_2020) (JVal false) JUndefined [] [].

Definition aws_cert : Certification.t :=
  Certification.mk (JVal "Solutions Architect") JUndefined JUndefined
    JUndefined JUndefined.

Definition resume_of (info : PersonalInfo.t) (exps : list Experience.t)
    (sk : jsval Skills.t) (certs : list Certification.t) : Resume.t :=
  Resume.mk (JVal 7%N) info exps [] sk [] certs no_accessibility
    (JVal "modern") (JVal false) JUndefined (JVal true).

Definition jane : Resume.t := resume_of jane_info [acme] JUndefined [].

(** Jane's resume with a skills object whose three lists are empty,
    as Mongoose hands out for a document that sets no skills. *)
Definition jane_no_skills : Resume.t :=
  resume_of jane_info [] (JVal (Skills.mk [] [] [])) [].

Definition jane_backwards : Resume.t :=
  resume_of jane_info [backwards] JUndefined [].

Definition jane_certified : Resume.t :=
  resume_of jane_info [] JUndefined [aws_cert].

(** A resume whose full name is three spaces. *)
Definition blank_name : Resume.t :=
  resume_of
    (PersonalInfo.mk (JVal "   ") (JVal "jane@example.com")
       JUndefined JUndefined JUndefined JUndefined JUndefined)
    [] JUndefined [].

(** A resume without a full name. *)
Definition no_name : Resume.t :=
  resume_of
    (PersonalInfo.mk JUndefined (JVal "jane@example.com")
       JUndefined JUndefined JUndefined JUndefined JUndefined)
    [] JUndefined [].

Definition member (key : string) (j : json) : option json :=
  match j with
  | J_object ms =>
      snd <$> find (fun kv => String.eqb (fst kv) key) ms
  | _ => None
  end.

Definition template_of (body : json) : jsval string :=
  match member "template" body with
  | Some (J_string s) => JVal s
  | Some J_null => JNull
  | _ => JUndefined
  end.

Definition not_json : string := "Sure! Here is the resume you asked for.".

(** A test double of the platform: UTC, a provider that answers with a
    sentence instead of JSON, a [JSON.parse] that knows that sentence
    and the empty object, and update handling for bodies that set
    [template] only (the schema's enum validator runs on it). *)
Definition env : Env :=
  {| LocalTZA := fun _ => 0;
     toLocaleDateString := fun t => "day " +:+ string_of_Z (Day t);
     generateContent := fun _ => Returns not_json;
     JSON_parse := fun s =>
       if String.eqb s "{}" then Some (J_object []) else None;
     castResume := fun _ => ([], jane);
     validateUpdate := fun body =>
       Resume.enum_string "template" Resume.template_enum
         (template_of body);
     applyUpdate := fun body r =>
       match template_of body with
       | JUndefined => r
       | t => Resume.set_template t r
       end;
     development := false |}.

(** A collection holding Jane's resume, owned by user 7, under id 1. *)
Definition world : World := mkWorld {[ 1%N := jane ]} [].

Definition blank_doc : PDFDocument := new_PDFDocument "A4" 50.

End Sample.

(* ===================================================================== *)
(** ** Listing ([router.get('/')]) *)
(* ===================================================================== *)

(** The body of the list answer: [data] is an array of documents. *)
Record ListBody : Type := mkListBody {
  list_status : string;
  list_data : list (ObjectId * Resume.t)
}.

(** The conditions [{ userId: user, isActive: true }] on a document. *)
Definition owned_active (user : ObjectId) (r : Resume.t) : bool :=
  oid_is user (Resume.userId r) && bool_is true (Resume.isActive r).

(** [Resume.find({ userId, isActive: true })]: the matching documents. *)
Definition find (user : ObjectId) (c : gmap ObjectId Resume.t)
  : gmap ObjectId Resume.t :=
  filter (fun p => owned_active user (snd p) = true) c.

(** The order of [.sort({ updatedAt: -1 })].  Mongoose keeps [updatedAt]
    on every document ([timestamps: true]); it is given here as a
    function of the [_id]. *)
Definition newer_first (updatedAt : ObjectId -> Z)
    (x y : ObjectId * Resume.t) : Prop :=
  updatedAt (fst y) <= updatedAt (fst x).

#[global] Instance newer_first_dec (updatedAt : ObjectId -> Z) :
  forall x y, Decision (newer_first updatedAt x y).
Proof. intros x y. unfold newer_first. apply _. Defined.

(** [router.get('/')]: the status code, the body and the state. *)
Definition get_resumes (updatedAt : ObjectId -> Z) (user : ObjectId)
    (w : World) : (Z * ListBody) * World :=
  let resumes :=
    merge_sort (newer_first updatedAt) (map_to_list (find user (resumes w))) in
  ((200, mkListBody "success" resumes), w).

(* ===================================================================== *)
(** ** Timestamps ([timestamps: true]) *)
(* ===================================================================== *)

(** The schema asks Mongoose for [createdAt] and [updatedAt].  They are
    kept here beside the collection, per [_id], and the delete route is
    given with what it does to them. *)
Module Stamped.

Record Timestamps : Type := mkTimestamps {
  createdAt : jsval Z;
  updatedAt : jsval Z
}.

Record Store : Type := mkStore {
  state : World;
  timestamps : gmap ObjectId Timestamps
}.

(** What Mongoose adds to the update of [findOneAndUpdate]:
    [$set: { updatedAt: now }].  [createdAt] is set on insert only. *)
Definition touch (now : Z) (id : ObjectId)
    (ts : gmap ObjectId Timestamps) : gmap ObjectId Timestamps :=
  <[id := mkTimestamps
            (match ts !! id with
             | Some t => createdAt t
             | None => JUndefined
             end)
            (JVal now)]> ts.

(** [router.delete('/:id')] at the time [now], timestamps included. *)
Definition delete_resume_at (now : Z) (id user : ObjectId) (s : Store)
  : Response * Store :=
  let '(res, w) := delete_resume id user (state s) in
  (res,
   mkStore w
     (match findOne (mkFilter id user None) (resumes (state s)) with
      | Some _ => touch now id (timestamps s)
      | None => timestamps s
      end)).

End Stamped.

(* ===================================================================== *)
(** ** Content of a rendering step *)
(* ===================================================================== *)

(** What a step writes on a fresh document. *)
Definition content (f : PDFDocument -> PDFDocument) : list call :=
  calls (f (new_PDFDocument "A4" 50)).

(** A step that keeps the options of the document and the calls made so
    far, and adds after them the same calls as on a fresh document. *)
Definition adds_content (f : PDFDocument -> PDFDocument) : Prop :=
  forall doc,
    f doc = mkDoc (size doc) (margin doc) (calls doc ++ content f).

(* ===================================================================== *)
(** ** Strings as UTF-16 code units *)
(* ===================================================================== *)

(** The user schema measures strings ([maxlength], [minlength]) and
    matches them against a regular expression, so its strings are taken
    as JavaScript has them: sequences of UTF-16 code units. *)
Module Utf16.

Definition ustring : Type := list N.

(** The code units of a text of ASCII characters. *)
Definition of_ascii (s : string) : ustring :=
  map N_of_ascii (list_ascii_of_string s).

(** WhiteSpace and LineTerminator of ECMAScript: what
    [String.prototype.trim] strips. *)
Definition is_white_space (c : N) : bool :=
  ((9 <=? c) && (c <=? 13) || (c =? 32) || (c =? 160) || (c =? 5760)
   || (8192 <=? c) && (c <=? 8202) || (c =? 8232) || (c =? 8233)
   || (c =? 8239) || (c =? 8287) || (c =? 12288) || (c =? 65279))%N.

Fixpoint trim_start (s : ustring) : ustring :=
  match s with
  | c :: s' => if is_white_space c then trim_start s' else s
  | [] => []
  end.

Definition trim_end (s : ustring) : ustring := rev (trim_start (rev s)).

(** [String.prototype.trim] *)
Definition trim (s : ustring) : ustring := trim_end (trim_start s).

(** [\w] without the unicode flag: [[A-Za-z0-9_]]. *)
Definition is_word (c : N) : bool :=
  ((48 <=? c) && (c <=? 57) || (65 <=? c) && (c <=? 90) || (c =? 95)
   || (97 <=? c) && (c <=? 122))%N.

(** [toLowerCase] on the letters A to Z, for texts of ASCII characters. *)
Definition ascii_lower (s : ustring) : ustring :=
  map (fun c => if ((65 <=? c) && (c <=? 90))%N then (c + 32)%N else c) s.

End Utf16.

(* ===================================================================== *)
(** ** Regular expressions *)
(* ===================================================================== *)

(** The regular expressions the user schema needs: character classes,
    sequence, alternative and repetition.  A pattern anchored with [^] and
    [$] matches a string when the whole string is in its language. *)
Module Regex.

Import Utf16.

Inductive t : Type :=
| Void
| Eps
| Class (p : N -> bool)
| Cat (a b : t)
| Alt (a b : t)
| Star (a : t).

(** [a+], [a?] *)
Definition Plus (a : t) : t := Cat a (Star a).
Definition Opt (a : t) : t := Alt Eps a.

(** The strings of a pattern. *)
Inductive lang : t -> ustring -> Prop :=
| lang_eps : lang Eps []
| lang_class p c : p c = true -> lang (Class p) [c]
| lang_cat a b s1 s2 : lang a s1 -> lang b s2 -> lang (Cat a b) (s1 ++ s2)
| lang_alt_l a b s : lang a s -> lang (Alt a b) s
| lang_alt_r a b s : lang b s -> lang (Alt a b) s
| lang_star_nil a : lang (Star a) []
| lang_star_cons a s1 s2 :
    lang a s1 -> lang (Star a) s2 -> lang (Star a) (s1 ++ s2).

(** Matching by derivatives. *)
Fixpoint nullable (r : t) : bool :=
  match r with
  | Void => false
  | Eps => true
  | Class _ => false
  | Cat a b => nullable a && nullable b
  | Alt a b => nullable a || nullable b
  | Star _ => true
  end.

(** Sequence and alternative, with the parts that cannot match left out. *)
Definition cat (a b : t) : t :=
  match a with
  | Void => Void
  | Eps => b
  | _ => Cat a b
  end.

Definition alt (a b : t) : t :=
  match a, b with
  | Void, _ => b
  | _, Void => a
  | _, _ => Alt a b
  end.

Fixpoint deriv (c : N) (r : t) : t :=
  match r with
  | Void => Void
  | Eps => Void
  | Class p => if p c then Eps else Void
  | Cat a b =>
      if nullable a then alt (cat (deriv c a) b) (deriv c b)
      else cat (deriv c a) b
  | Alt a b => alt (deriv c a) (deriv c b)
  | Star a => cat (deriv c a) (Star a)
  end.

(** [/^r$/.test(s)] *)
Fixpoint test (r : t) (s : ustring) : bool :=
  match s with
  | [] => nullable r
  | c :: s' => test (deriv c r) s'
  end.

(** Every character class of [r] is within [P]. *)
Fixpoint classes_within (P : N -> Prop) (r : t) : Prop :=
  match r with
  | Class p => forall c, p c = true -> P c
  | Cat a b | Alt a b => classes_within P a /\ classes_within P b
  | Star a => classes_within P a
  | _ => True
  end.

End Regex.

(* ===================================================================== *)
(** ** The user schema ([backend/models/User.js], the model part) *)
(* ===================================================================== *)

Module User.

Import Utf16 Regex.

Record t : Type := mk {
  name : jsval ustring;            (* required, trim, maxlength 50 *)
  email : jsval ustring;           (* required, lowercase, match *)
  password : jsval ustring;        (* required, minlength 6 *)
  disabilityType : jsval ustring;  (* required, enum *)
  skills : list ustring;           (* trim *)
  workFromHome : jsval bool;       (* default false *)
  flexibleHours : jsval bool;      (* default false *)
  accessibilityRequirements : list ustring;  (* trim *)
  preferredIndustries : list ustring;        (* trim *)
  salaryMin : jsval Q;
  salaryMax : jsval Q;
  isActive : jsval bool;           (* default true *)
  profileCompleted : jsval bool;   (* default false *)
  avatar : jsval ustring           (* default '' *)
}.

(** The values of the [disabilityType] enum. *)
Definition disabilityType_enum : list ustring :=
  map of_ascii
    ["physical"; "visual"; "hearing"; "cognitive"; "mental"; "other";
     "none"].

(** The pattern of [match]:
    [/^\w+([.-]?\w+)*@\w+([.-]?\w+)*(\.\w{2,3})+$/] *)
Definition word : Regex.t := Class is_word.
Definition dot_or_dash : Regex.t :=
  Class (fun c => (c =? 46) || (c =? 45))%N.
Definition at_sign : Regex.t := Class (fun c => c =? 64)%N.
Definition dot : Regex.t := Class (fun c => c =? 46)%N.

(** [\w+([.-]?\w+)*] *)
Definition words : Regex.t :=
  Cat (Plus word) (Star (Cat (Opt dot_or_dash) (Plus word))).

(** [\.\w{2,3}] *)
Definition suffix : Regex.t :=
  Cat dot (Cat word (Cat word (Opt word))).

Definition email_pattern : Regex.t :=
  Cat words (Cat at_sign (Cat words (Plus suffix))).

(** The characters the pattern lets an address hold besides the at sign:
    word characters, the dot and the dash. *)
Definition address_char (c : N) : Prop :=
  is_word c = true \/ c = 46%N \/ c = 45%N.

(** *** Setters and defaults

    Building a document applies the setters [trim] and [lowercase] to the
    strings that are there, and the defaults to the paths that are
    [undefined].  [toLowerCase] is the platform's. *)
Definition on_string (f : ustring -> ustring) (v : jsval ustring)
  : jsval ustring :=
  match v with
  | JVal s => JVal (f s)
  | _ => v
  end.

Definition construct (toLowerCase : ustring -> ustring) (u : t) : t :=
  mk (on_string trim (name u))
     (on_string toLowerCase (email u))
     (password u)
     (disabilityType u)
     (map trim (skills u))
     (Resume.default_to false (workFromHome u))
     (Resume.default_to false (flexibleHours u))
     (map trim (accessibilityRequirements u))
     (map trim (preferredIndustries u))
     (salaryMin u) (salaryMax u)
     (Resume.default_to true (isActive u))
     (Resume.default_to false (profileCompleted u))
     (Resume.default_to [] (avatar u)).

(** *** Validators *)

Inductive error_kind : Type :=
| Required
| MaxLength
| MinLength
| NoMatch
| NotInEnum (value : ustring).

Record ValidatorError : Type := mkError {
  path : string;
  kind : error_kind
}.

(** The messages the schema gives its validators; the enum has the
    default one. *)
Definition error_message (e : ValidatorError) : ustring :=
  match kind e, path e with
  | Required, "name" => of_ascii "Name is required"
  | Required, "email" => of_ascii "Email is required"
  | Required, "password" => of_ascii "Password is required"
  | Required, _ => of_ascii "Disability type is required"
  | MaxLength, _ => of_ascii "Name cannot exceed 50 characters"
  | MinLength, _ => of_ascii "Password must be at least 6 characters"
  | NoMatch, _ => of_ascii "Please enter a valid email"
  | NotInEnum v, p =>
      of_ascii "`" ++ v ++ of_ascii "` is not a valid enum value for path `"
      ++ of_ascii p ++ of_ascii "`."
  end.

(** The [required] check of a String path. *)
Definition checkRequired (v : jsval ustring) : bool :=
  match v with
  | JVal s => negb (Nat.eqb (length s) 0)
  | _ => false
  end.

Definition ustring_eqb (a b : ustring) : bool :=
  bool_decide (a = b).

(** The validators of a path run in order, [required] first, and the
    first one that fails gives the error of the path.  The other
    validators pass on [null] and [undefined]. *)
Definition validate_path (p : string) (v : jsval ustring)
    (second : ustring -> option error_kind) : list ValidatorError :=
  if checkRequired v then
    match v with
    | JVal s =>
        match second s with
        | Some k => [mkError p k]
        | None => []
        end
    | _ => []
    end
  else [mkError p Required].

Definition maxlength (n : nat) (s : ustring) : option error_kind :=
  if Nat.leb (length s) n then None else Some MaxLength.

Definition minlength (n : nat) (s : ustring) : option error_kind :=
  if Nat.leb n (length s) then None else Some MinLength.

Definition matches_pattern (r : Regex.t) (s : ustring)
  : option error_kind :=
  if Regex.test r s then None else Some NoMatch.

Definition in_enum (values : list ustring) (s : ustring)
  : option error_kind :=
  if existsb (ustring_eqb s) values then None else Some (NotInEnum s).

(** All validator errors of a document.  The list is in the order of the
    schema; the order in which Mongoose reports several errors may
    differ. *)
Definition validateSync (u : t) : list ValidatorError :=
  validate_path "name" (name u) (maxlength 50)
  ++ validate_path "email" (email u) (matches_pattern email_pattern)
  ++ validate_path "password" (password u) (minlength 6)
  ++ validate_path "disabilityType" (disabilityType u)
       (in_enum disabilityType_enum).

End User.

(* ===================================================================== *)
(** ** More sample data *)
(* ===================================================================== *)

Module Fixture.

(** The platform of [Sample.env] with a provider that answers with the
    empty JSON object. *)
Definition env : Env :=
  {| LocalTZA := LocalTZA Sample.env;
     toLocaleDateString := toLocaleDateString Sample.env;
     generateContent := fun _ => Returns "{}";
     JSON_parse := JSON_parse Sample.env;
     castResume := castResume Sample.env;
     validateUpdate := validateUpdate Sample.env;
     applyUpdate := applyUpdate Sample.env;
     development := false |}.

(** Jane's resume after a soft delete. *)
Definition jane_deleted : Resume.t :=
  Resume.set_isActive (JVal false) Sample.jane.

Definition world_deleted : World := mkWorld {[ 1%N := jane_deleted ]} [].

(** Two resumes of user 7 and one of user 8. *)
Definition world3 : World :=
  mkWorld
    (<[ 1%N := Sample.jane ]>
       (<[ 2%N := Sample.jane_certified ]>
          (<[ 3%N := Resume.set_userId (JVal 8%N) Sample.jane ]> ∅)))
    [].

(** Jane's resume, created at time 100, and the same after a soft
    delete at time 150. *)
Definition store : Stamped.Store :=
  Stamped.mkStore Sample.world
    {[ 1%N := Stamped.mkTimestamps (JVal 100) (JVal 100) ]}.

Definition store_deleted : Stamped.Store :=
  Stamped.mkStore world_deleted
    {[ 1%N := Stamped.mkTimestamps (JVal 100) (JVal 150) ]}.

(** The resume with [_id] 2 was updated last. *)
Definition stamps (id : ObjectId) : Z :=
  if N.eqb id 2 then 300 else if N.eqb id 1 then 100 else 200.

End Fixture.

Module UserFixture.

Import Utf16.

Definition user_of (name email password kind : string) : User.t :=
  User.mk (JVal (of_ascii name)) (JVal (of_ascii email))
    (JVal (of_ascii password)) (JVal (of_ascii kind))
    [] JUndefined JUndefined [] [] JUndefined JUndefined
    JUndefined JUndefined JUndefined.

(** A registration with a padded name and a capitalised address. *)
Definition jane : User.t :=
  user_of "  Jane Doe " "Jane.Doe@Example.com" "secret1" "visual".

(** The same registration with a name of blanks and tabs only. *)
Definition blank : User.t :=
  User.mk (JVal [32; 9; 32]%N) (User.email jane) (User.password jane)
    (User.disabilityType jane)
    [] JUndefined JUndefined [] [] JUndefined JUndefined
    JUndefined JUndefined JUndefined.

End UserFixture.

(* ===================================================================== *)
(** ** Properties of the platform-independent parts *)
(* ===================================================================== *)

(** [YearFromDay] is the year of ECMAScript: the day lies between the
    first day of that year and the first day of the next. *)
Lemma YearFromDay_bounds (d : Z) :
  DayFromYear (YearFromDay d) <= d < DayFromYear (YearFromDay d + 1).
Proof.
  unfold YearFromDay.
  destruct (Z.ltb_spec d (DayFromYear (1970 + 400 * d / 146097))) as [Hlt|Hge].
  - unfold DayFromYear in *. Z.div_mod_to_equations. lia.
  - destruct (Z.leb_spec (DayFromYear (1970 + 400 * d / 146097 + 1)) d).
    + unfold DayFromYear in *. Z.div_mod_to_equations. lia.
    + lia.
Qed.

Lemma truthy_str_non_empty (v : jsval string) :
  truthy_str v = true <-> non_empty_string v.
Proof.
  unfold non_empty_string. destruct v as [| |s]; simpl.
  - split; [discriminate | intros (s & H & _); discriminate].
  - split; [discriminate | intros (s & H & _); discriminate].
  - destruct (String.eqb_spec s "") as [->|Hne]; simpl.
    + split; [discriminate | intros (s & [= <-] & Hs); congruence].
    + split; [eauto | reflexivity].
Qed.

Lemma checkRequired_string_spec (v : jsval string) :
  Resume.checkRequired_string v = true <-> non_empty_string v.
Proof.
  unfold non_empty_string. destruct v as [| |s]; simpl.
  - split; [discriminate | intros (s & H & _); discriminate].
  - split; [discriminate | intros (s & H & _); discriminate].
  - destruct s as [|c s]; simpl.
    + split; [discriminate | intros (s & [= <-] & Hs); congruence].
    + split; [intros _; eexists; split; [reflexivity | discriminate]
             | reflexivity].
Qed.

(* ===================================================================== *)
(** ** Properties of documents *)
(* ===================================================================== *)

Section DocumentLemmas.

Variable env : Env.

Lemma extends_invoke c : extends (invoke c).
Proof. intros doc. exists [c]. reflexivity. Qed.

Lemma extends_id : extends (fun doc => doc).
Proof. intros [s m cs]. exists []. simpl. now rewrite app_nil_r. Qed.

Lemma extends_compose f g :
  extends f -> extends g -> extends (fun doc => g (f doc)).
Proof.
  intros Hf Hg doc.
  destruct (Hf doc) as [a Ha]. destruct (Hg (f doc)) as [b Hb].
  exists (a ++ b). rewrite Hb, Ha. simpl. now rewrite app_assoc.
Qed.

Lemma extends_when c f : extends f -> extends (when c f).
Proof.
  intros Hf. unfold when. destruct c; [exact Hf | apply extends_id].
Qed.

Lemma extends_forEach {A} (l : list A) body :
  (forall x, extends (body x)) -> extends (forEach l body).
Proof.
  intros Hb. unfold forEach.
  induction l as [|x l IH]; simpl.
  - apply extends_id.
  - intros doc. apply (extends_compose (body x) _ (Hb x) IH).
Qed.

Ltac chain :=
  repeat first
    [ apply extends_invoke
    | apply extends_when
    | apply extends_forEach; intros ?
    | apply (extends_compose _ (invoke _))
    | apply (extends_compose _ (when _ _)) ].

Lemma extends_header p : extends (header p).
Proof. unfold header, do_fontSize, do_font, do_text_center, do_moveDown. chain. Qed.

Lemma extends_summary_section p : extends (summary_section p).
Proof.
  unfold summary_section, do_fontSize, do_font, do_text, do_moveDown.
  chain.
Qed.

Lemma extends_experience_entry e : extends (experience_entry env e).
Proof.
  unfold experience_entry, do_fontSize, do_font, do_text, do_moveDown.
  chain.
Qed.

Lemma extends_education_entry e : extends (education_entry e).
Proof.
  unfold education_entry, do_fontSize, do_font, do_text, do_moveDown.
  chain.
Qed.

Lemma extends_project_entry p : extends (project_entry p).
Proof.
  unfold project_entry, do_fontSize, do_font, do_text, do_moveDown.
  chain.
Qed.

Lemma extends_certification_entry c : extends (certification_entry env c).
Proof.
  unfold certification_entry, do_fontSize, do_font, do_text, do_moveDown.
  chain.
Qed.

Lemma extends_experience_section l : extends (experience_section env l).
Proof.
  unfold experience_section, do_fontSize, do_font, do_text.
  apply extends_when.
  apply (extends_compose _ (forEach _ _)).
  - chain.
  - apply extends_forEach, extends_experience_entry.
Qed.

Lemma extends_education_section l : extends (education_section l).
Proof.
  unfold education_section, do_fontSize, do_font, do_text.
  apply extends_when.
  apply (extends_compose _ (forEach _ _)).
  - chain.
  - apply extends_forEach, extends_education_entry.
Qed.

Lemma extends_skills_section s : extends (skills_section s).
Proof.
  destruct s as [| |sk]; simpl; try apply extends_id.
  unfold skills_body, do_fontSize, do_font, do_text, do_moveDown.
  chain.
Qed.

Lemma extends_projects_section l : extends (projects_section l).
Proof.
  unfold projects_section, do_fontSize, do_font, do_text.
  apply extends_when.
  apply (extends_compose _ (forEach _ _)).
  - chain.
  - apply extends_forEach, extends_project_entry.
Qed.

Lemma extends_certifications_section l :
  extends (certifications_section env l).
Proof.
  unfold certifications_section, do_fontSize, do_font, do_text.
  apply extends_when.
  apply (extends_compose _ (forEach _ _)).
  - chain.
  - apply extends_forEach, extends_certification_entry.
Qed.

(** What occurs in a document still occurs after a step that extends
    it. *)
Lemma occurs_extends (block : list call) f doc :
  extends f -> occurs block (calls doc) -> occurs block (calls (f doc)).
Proof.
  intros Hf (pre & post & Hdoc). destruct (Hf doc) as [cs Hcs].
  exists pre, (post ++ cs). rewrite Hcs. simpl. rewrite Hdoc.
  now rewrite <- !app_assoc.
Qed.

(** A block that the body writes for [x] occurs in what the loop over a
    list containing [x] writes. *)
Lemma occurs_forEach {A} (block : list call) (x : A) l body doc :
  (forall y, extends (body y)) ->
  (forall d, occurs block (calls (body x d))) ->
  In x l ->
  occurs block (calls (forEach l body doc)).
Proof.
  intros Hext Hblock. unfold forEach. revert doc.
  induction l as [|y l IH]; intros doc Hin; simpl in *.
  - contradiction.
  - destruct Hin as [->|Hin].
    + apply (occurs_extends block (forEach l body)).
      * now apply extends_forEach.
      * apply Hblock.
    + now apply IH.
Qed.

Lemma non_empty_In {A} (x : A) l : In x l -> non_empty l = true.
Proof. destruct l; [contradiction | reflexivity]. Qed.

(** The six calls that open the block of an experience entry. *)
Lemma experience_entry_block e doc :
  occurs
    [fontSize 12; font "Helvetica-Bold";
     text (JVal (str_of (Experience.position e) +:+ " at "
                 +:+ str_of (Experience.company e))) None;
     fontSize 10; font "Helvetica";
     text (JVal (experience_dates env e)) None]
    (calls (experience_entry env e doc)).
Proof.
  unfold experience_entry.
  apply (occurs_extends _ (do_moveDown _)); [apply extends_invoke|].
  apply (occurs_extends _ (when _ _));
    [apply extends_when, extends_forEach; intros; apply extends_invoke|].
  apply (occurs_extends _ (when _ _));
    [apply extends_when, extends_invoke|].
  exists (calls doc), []. simpl.
  now rewrite <- !app_assoc.
Qed.

(** The calls made for a certification entry. *)
Lemma certification_entry_calls c doc :
  calls (certification_entry env c doc)
  = calls doc
    ++ [fontSize 12; font "Helvetica-Bold";
        text (Certification.name c) None;
        fontSize 10; font "Helvetica";
        text (JVal ("Issued by: " +:+ str_of (Certification.issuer c)))
          None]
    ++ match Certification.date c with
       | JVal t =>
           [text (JVal ("Date: " +:+ toLocaleDateString env t)) None]
       | _ => []
       end
    ++ [moveDown (3 # 10)].
Proof.
  unfold certification_entry.
  destruct (Certification.date c); simpl; now rewrite <- !app_assoc.
Qed.

End DocumentLemmas.

(* ===================================================================== *)
(** ** Rendering: the claims on the emitted document *)
(* ===================================================================== *)

(** The end-to-end scenario of the specification: one current position at
    Acme since 2021 reads "Frontend Engineer at Acme", "2021 - Present". *)
Example jane_document :
  calls (generatePDFContent Sample.env Sample.blank_doc Sample.jane)
  = [fontSize 24; font "Helvetica-Bold";
     text (JVal "Jane Doe") (Some "center");
     fontSize 12; font "Helvetica";
     text (JVal "jane@example.com") (Some "center");
     moveDown (5 # 10);
     fontSize 14; font "Helvetica-Bold";
     text (JVal "Professional Experience") None;
     fontSize 12; font "Helvetica-Bold";
     text (JVal "Frontend Engineer at Acme") None;
     fontSize 10; font "Helvetica";
     text (JVal "2021 - Present") None;
     moveDown (3 # 10)].
Proof. vm_compute. reflexivity. Qed.

(** A section whose guard fails writes nothing: no summary, and empty
    experience, education, projects and certifications. *)
Lemma guarded_sections_omitted (env : Env) (doc : PDFDocument)
    (p : PersonalInfo.t) :
  truthy_str (PersonalInfo.summary p) = false ->
  summary_section p doc = doc
  /\ experience_section env [] doc = doc
  /\ education_section [] doc = doc
  /\ projects_section [] doc = doc
  /\ certifications_section env [] doc = doc
  /\ skills_section JUndefined doc = doc.
Proof.
  intros Hsummary. unfold summary_section, when. rewrite Hsummary.
  repeat split.
Qed.

(** The skills section of any skills object is written, title first,
    even when its three lists are empty. *)
Lemma skills_section_empty_lists (doc : PDFDocument) :
  calls (skills_section (JVal (Skills.mk [] [] [])) doc)
  = calls doc
    ++ [fontSize 14; font "Helvetica-Bold"; text (JVal "Skills") None;
        moveDown (5 # 10)].
Proof. simpl. now rewrite <- !app_assoc. Qed.

(** C2 (the code departs from the claim): a resume whose skills object
    holds three empty lists still gets the "Skills" title, written at the
    heading size and followed by nothing but the closing [moveDown]; the
    sections the specification lists for that resume are none. *)
Theorem skills_heading_without_content (env : Env) :
  calls (generatePDFContent env Sample.blank_doc Sample.jane_no_skills)
  = [fontSize 24; font "Helvetica-Bold";
     text (JVal "Jane Doe") (Some "center");
     fontSize 12; font "Helvetica";
     text (JVal "jane@example.com") (Some "center");
     moveDown (5 # 10);
     fontSize 14; font "Helvetica-Bold";
     text (JVal "Skills") None;
     moveDown (5 # 10)]
  /\ section_headings
       (generatePDFContent env Sample.blank_doc Sample.jane_no_skills)
     = [JVal "Skills"]
  /\ spec_sections Sample.jane_no_skills = [].
Proof. repeat split. Qed.

(** C6: for every experience entry of a resume the document holds, one
    after the other, the line "{position} at {company}" in bold 12 and the
    date line "{startYear} - {endYear}" in regular 10, where "Present"
    stands for the end year when [current] is truthy; with [current] true
    the date line is "{startYear} - Present" whatever [endDate] is. *)
Theorem experience_block_emitted (env : Env) (doc : PDFDocument)
    (r : Resume.t) (e : Experience.t) :
  In e (Resume.experience r) ->
  let startYear :=
    number_to_string (getFullYear env (new_Date (Experience.startDate e))) in
  let endYear :=
    number_to_string (getFullYear env (new_Date (Experience.endDate e))) in
  occurs
    [fontSize 12; font "Helvetica-Bold";
     text (JVal (str_of (Experience.position e) +:+ " at "
                 +:+ str_of (Experience.company e))) None;
     fontSize 10; font "Helvetica";
     text (JVal (startYear +:+ " - "
                 +:+ (if truthy_bool (Experience.current e)
                      then "Present" else endYear))) None]
    (calls (generatePDFContent env doc r))
  /\ (forall endDate,
        experience_dates env (with_end endDate (JVal true) e)
        = startYear +:+ " - Present").
Proof.
  intros Hin startYear endYear. split; [|reflexivity].
  unfold generatePDFContent.
  apply (occurs_extends _ (certifications_section env _));
    [apply extends_certifications_section|].
  apply (occurs_extends _ (projects_section _));
    [apply extends_projects_section|].
  apply (occurs_extends _ (skills_section _));
    [apply extends_skills_section|].
  apply (occurs_extends _ (education_section _));
    [apply extends_education_section|].
  unfold experience_section, when.
  rewrite (non_empty_In e _ Hin).
  apply occurs_forEach with (x := e); [| |exact Hin].
  - apply extends_experience_entry.
  - intros d. apply experience_entry_block.
Qed.

Lemma experience_block_emitted_witness :
  occurs
    [fontSize 12; font "Helvetica-Bold";
     text (JVal "Frontend Engineer at Acme") None;
     fontSize 10; font "Helvetica";
     text (JVal "2021 - Present") None]
    (calls (generatePDFContent Sample.env Sample.blank_doc Sample.jane)).
Proof.
  exact (proj1 (experience_block_emitted Sample.env Sample.blank_doc
                  Sample.jane Sample.acme (or_introl eq_refl))).
Defined.

(** C10: for every certification entry of a resume the document holds its
    block: the name, then the line "Issued by: {issuer}" whether or not an
    issuer is there, then the line "Date: ..." exactly when a date is
    there, then the closing [moveDown]; with the issuer absent the line
    reads "Issued by: undefined". *)
Theorem certification_block_emitted (env : Env) (doc : PDFDocument)
    (r : Resume.t) (c : Certification.t) :
  In c (Resume.certifications r) ->
  occurs
    ([fontSize 12; font "Helvetica-Bold";
      text (Certification.name c) None;
      fontSize 10; font "Helvetica";
      text (JVal ("Issued by: " +:+ str_of (Certification.issuer c))) None]
     ++ match Certification.date c with
        | JVal t => [text (JVal ("Date: " +:+ toLocaleDateString env t)) None]
        | _ => []
        end
     ++ [moveDown (3 # 10)])
    (calls (generatePDFContent env doc r))
  /\ (Certification.issuer c = JUndefined ->
      In (text (JVal "Issued by: undefined") None)
         (calls (generatePDFContent env doc r))).
Proof.
  intros Hin.
  assert (Hocc : forall d, occurs
    ([fontSize 12; font "Helvetica-Bold";
      text (Certification.name c) None;
      fontSize 10; font "Helvetica";
      text (JVal ("Issued by: " +:+ str_of (Certification.issuer c))) None]
     ++ match Certification.date c with
        | JVal t => [text (JVal ("Date: " +:+ toLocaleDateString env t)) None]
        | _ => []
        end
     ++ [moveDown (3 # 10)])
    (calls (generatePDFContent env d r))).
  { intros d. unfold generatePDFContent, certifications_section, when.
    rewrite (non_empty_In c _ Hin).
    apply occurs_forEach with (x := c); [| |exact Hin].
    - apply extends_certification_entry.
    - intros d'. exists (calls d'), [].
      rewrite certification_entry_calls. now rewrite app_nil_r. }
  split; [apply Hocc|].
  intros Hissuer. destruct (Hocc doc) as (pre & post & ->).
  rewrite Hissuer. simpl.
  apply in_or_app. right. simpl. do 5 right. left. reflexivity.
Qed.

Lemma certification_block_emitted_witness :
  occurs
    [fontSize 12; font "Helvetica-Bold";
     text (JVal "Solutions Architect") None;
     fontSize 10; font "Helvetica";
     text (JVal "Issued by: undefined") None;
     moveDown (3 # 10)]
    (calls (generatePDFContent Sample.env Sample.blank_doc
              Sample.jane_certified)).
Proof.
  exact (proj1 (certification_block_emitted Sample.env Sample.blank_doc
                  Sample.jane_certified Sample.aws_cert
                  (or_introl eq_refl))).
Defined.

(** [generatePDFContent] never reads the [template] path. *)
Lemma generatePDFContent_set_template (env : Env) (doc : PDFDocument)
    (t : jsval string) (r : Resume.t) :
  generatePDFContent env doc (Resume.set_template t r)
  = generatePDFContent env doc r.
Proof. reflexivity. Qed.

Lemma matches_set_template (q : Filter) (t : jsval string) (r : Resume.t) :
  matches q (Resume.set_template t r) = matches q r.
Proof. reflexivity. Qed.

(** C7: two resumes that differ only in their template id give the same
    calls on the document, and the PDF route answers two collections that
    differ only in the template id of the requested resume with the same
    headers and the same document: the template id does not reach the
    output. *)
Theorem template_noninterference (env : Env) :
  (forall (doc : PDFDocument) (r : Resume.t) (t1 t2 : jsval string),
     generatePDFContent env doc (Resume.set_template t1 r)
     = generatePDFContent env doc (Resume.set_template t2 r))
  /\ (forall (c : gmap ObjectId Resume.t) (log : list string)
        (id user : ObjectId) (r : Resume.t) (t1 t2 : jsval string),
        fst (get_resume_pdf env id user
               (mkWorld (<[id := Resume.set_template t1 r]> c) log))
        = fst (get_resume_pdf env id user
                 (mkWorld (<[id := Resume.set_template t2 r]> c) log))).
Proof.
  split.
  - intros doc r t1 t2. now rewrite !generatePDFContent_set_template.
  - intros c log id user r t1 t2.
    unfold get_resume_pdf, findOne. cbn [resumes f_id].
    rewrite !lookup_insert_eq, !matches_set_template.
    destruct (matches _ r); [|reflexivity].
    change (content_disposition (Resume.set_template t1 r))
      with (content_disposition r).
    change (content_disposition (Resume.set_template t2 r))
      with (content_disposition r).
    destruct (header_value_ok (content_disposition r)); reflexivity.
Qed.

(* ===================================================================== *)
(** ** Generation: the claims on [router.post('/generate')] *)
(* ===================================================================== *)

(** C3: a request whose prompt is missing, null or the empty string is
    answered 400 "Prompt is required for AI generation" with the state
    untouched, so no prompt goes out to the provider; a request with a
    non-empty prompt sends the provider exactly one prompt, the one built
    from the request. *)
Theorem prompt_required (env : Env) (req : GenerateRequest)
    (user oid : ObjectId) (w : World) :
  (prompt req = JUndefined \/ prompt req = JNull \/ prompt req = JVal "" ->
   post_generate env req user oid w
   = (Json 400 (error_body "Prompt is required for AI generation"), w))
  /\ (non_empty_string (prompt req) ->
      providerCalls (snd (post_generate env req user oid w))
      = providerCalls w ++ [geminiPrompt_text (aiPrompt_text (prompt req))]).
Proof.
  split.
  - intros Hempty. unfold post_generate.
    destruct Hempty as [->|[->| ->]]; reflexivity.
  - intros Hne. apply truthy_str_non_empty in Hne.
    unfold post_generate. rewrite Hne. simpl.
    destruct (generateContent env _) as [m|content]; [reflexivity|].
    destruct (JSON_parse env content) as [parsed|]; [|reflexivity].
    destruct (castResume env parsed) as [cast_errors spread].
    destruct (save _ _ _ _); reflexivity.
Qed.

Lemma prompt_required_witness :
  post_generate Sample.env (mkGenerateRequest (JVal "") JUndefined)
    7%N 2%N Sample.world
  = (Json 400 (error_body "Prompt is required for AI generation"),
     Sample.world)
  /\ providerCalls
       (snd (post_generate Sample.env
               (mkGenerateRequest (JVal "Frontend engineer") JUndefined)
               7%N 2%N Sample.world))
     = [geminiPrompt_text (aiPrompt_text (JVal "Frontend engineer"))].
Proof.
  split.
  - apply (proj1 (prompt_required Sample.env
                    (mkGenerateRequest (JVal "") JUndefined)
                    7%N 2%N Sample.world)).
    right. right. reflexivity.
  - apply (proj2 (prompt_required Sample.env
                    (mkGenerateRequest (JVal "Frontend engineer") JUndefined)
                    7%N 2%N Sample.world)).
    exists "Frontend engineer". split; [reflexivity | discriminate].
Defined.

(** C4: when the provider's text is not valid JSON ([JSON.parse] throws),
    the answer is 500 "Failed to parse AI response" with no resume in it,
    and the collection is as it was: nothing is built from the text and
    nothing is saved.  The one change of state is the prompt that went
    out. *)
Theorem malformed_response (env : Env) (req : GenerateRequest)
    (user oid : ObjectId) (w : World) (content : string) :
  non_empty_string (prompt req) ->
  generateContent env (geminiPrompt_text (aiPrompt_text (prompt req)))
  = Returns content ->
  JSON_parse env content = None ->
  post_generate env req user oid w
  = (Json 500 (mkBody "error" (Some "Failed to parse AI response")
                 None None),
     log_providerCall (geminiPrompt_text (aiPrompt_text (prompt req))) w)
  /\ resumes (snd (post_generate env req user oid w)) = resumes w.
Proof.
  intros Hne Hanswer Hparse. apply truthy_str_non_empty in Hne.
  unfold post_generate. rewrite Hne. simpl.
  rewrite Hanswer, Hparse. split; reflexivity.
Qed.

Lemma malformed_response_witness :
  post_generate Sample.env
    (mkGenerateRequest (JVal "Frontend engineer") JUndefined)
    7%N 2%N Sample.world
  = (Json 500 (mkBody "error" (Some "Failed to parse AI response")
                 None None),
     log_providerCall
       (geminiPrompt_text (aiPrompt_text (JVal "Frontend engineer")))
       Sample.world)
  /\ resumes (snd (post_generate Sample.env
                     (mkGenerateRequest (JVal "Frontend engineer")
                        JUndefined)
                     7%N 2%N Sample.world))
     = resumes Sample.world.
Proof.
  apply (malformed_response Sample.env
           (mkGenerateRequest (JVal "Frontend engineer") JUndefined)
           7%N 2%N Sample.world Sample.not_json).
  - exists "Frontend engineer". split; [reflexivity | discriminate].
  - reflexivity.
  - reflexivity.
Defined.

(* ===================================================================== *)
(** ** Ownership: the claim on the single-resume routes *)
(* ===================================================================== *)

Lemma findOne_other_user (id user : ObjectId) (active : option bool)
    (c : gmap ObjectId Resume.t) (r : Resume.t) :
  c !! id = Some r ->
  Resume.userId r <> JVal user ->
  findOne (mkFilter id user active) c = None.
Proof.
  intros Hlookup Hother. unfold findOne, matches. simpl. rewrite Hlookup.
  destruct (Resume.userId r) as [| |owner]; simpl; try reflexivity.
  destruct (N.eqb_spec owner user) as [->|Hne]; [congruence | reflexivity].
Qed.

(** C9, as the code has it: when the stored resume with the requested id
    belongs to another user, reading it, deleting it and asking for its
    PDF answer 404 "Resume not found"; updating it answers 404 "Resume not
    found" when the update passes Mongoose's casting and update
    validators, and otherwise 400 with the message of the error thrown:
    the CastError's own text when a value cannot be cast, the text of the
    ValidationError when an update validator fails (casting and
    validators run before the query); in all four cases the state is as
    it was and no resume is in the answer. *)
Theorem other_users_resume_untouched (env : Env) (id user : ObjectId)
    (body : json) (w : World) (r : Resume.t) :
  resumes w !! id = Some r ->
  Resume.userId r <> JVal user ->
  get_resume id user w = (not_found, w)
  /\ delete_resume id user w = (not_found, w)
  /\ get_resume_pdf env id user w = (not_found, w)
  /\ put_resume env id user body w
     = (match validateUpdate env body with
        | [] => not_found
        | errs =>
            Json 400
              (error_body
                 (match List.find Resume.is_cast_error errs with
                  | Some e => Resume.error_message e
                  | None =>
                      Resume.validation_message "Validation failed" errs
                  end))
        end, w).
Proof.
  intros Hlookup Hother.
  unfold get_resume, delete_resume, get_resume_pdf, put_resume,
    findOneAndUpdate.
  rewrite !(findOne_other_user id user _ _ r Hlookup Hother).
  repeat split. destruct (validateUpdate env body); reflexivity.
Qed.

Lemma other_users_resume_untouched_witness :
  get_resume 1%N 8%N Sample.world = (not_found, Sample.world)
  /\ delete_resume 1%N 8%N Sample.world = (not_found, Sample.world)
  /\ get_resume_pdf Sample.env 1%N 8%N Sample.world
     = (not_found, Sample.world)
  /\ put_resume Sample.env 1%N 8%N
       (J_object [("template", J_string "classic")]) Sample.world
     = (not_found, Sample.world).
Proof.
  apply (other_users_resume_untouched Sample.env 1%N 8%N
           (J_object [("template", J_string "classic")])
           Sample.world Sample.jane).
  - reflexivity.
  - discriminate.
Defined.

(** C9 as stated fails on an update: user 8 sends an update with a
    template outside the enum for resume 1 of user 7 and gets 400 with
    the validation message, not 404 "Resume not found". *)
Lemma put_invalid_update_not_404 :
  resumes Sample.world !! 1%N = Some Sample.jane
  /\ Resume.userId Sample.jane <> JVal 8%N
  /\ put_resume Sample.env 1%N 8%N
       (J_object [("template", J_string "bogus")]) Sample.world
     = (Json 400
          (error_body
             "Validation failed: template: `bogus` is not a valid enum value for path `template`."),
        Sample.world)
  /\ fst (put_resume Sample.env 1%N 8%N
            (J_object [("template", J_string "bogus")]) Sample.world)
     <> not_found.
Proof.
  split; [reflexivity|]. split; [discriminate|].
  split; [reflexivity|]. vm_compute. discriminate.
Qed.

(* ===================================================================== *)
(** ** Validation: the claims on the schema *)
(* ===================================================================== *)

Lemma save_accepts (id : ObjectId) (errs : list Resume.ValidatorError)
    (r : Resume.t) (c c' : gmap ObjectId Resume.t) :
  save id errs r c = inr c' ->
  errs = [] /\ Resume.validateSync r = [] /\ c' = <[id := r]> c.
Proof.
  unfold save. intros Hsave.
  destruct (errs ++ Resume.validateSync r) as [|e es] eqn:Herrs;
    [|discriminate].
  apply app_eq_nil in Herrs. destruct Herrs as [-> ->].
  destruct (c !! id); [discriminate|].
  injection Hsave as <-. repeat split.
Qed.

Lemma validate_experience_with_end (i : nat) (endDate : jsval Z)
    (current : jsval bool) (e : Experience.t) :
  Resume.validate_experience i (with_end endDate current e)
  = Resume.validate_experience i e.
Proof. reflexivity. Qed.

(** C1, as the code has it: the schema has no validator on [endDate] and
    none that looks at [current]; whatever values an experience entry has
    there, validation finds the same errors, and [save] either fails with
    the same message or stores the document with the dates as given. *)
Theorem end_date_not_validated (r : Resume.t)
    (pre post : list Experience.t) (e : Experience.t)
    (endDate : jsval Z) (current : jsval bool)
    (id : ObjectId) (errs : list Resume.ValidatorError)
    (c : gmap ObjectId Resume.t) :
  Resume.experience r = pre ++ e :: post ->
  let r' :=
    Resume.set_experience (pre ++ with_end endDate current e :: post) r in
  Resume.validateSync r' = Resume.validateSync r
  /\ save id errs r' c
     = match save id errs r c with
       | inr _ => inr (<[id := r']> c)
       | inl m => inl m
       end.
Proof.
  intros Hexp r'.
  assert (Hsame : Resume.validateSync r' = Resume.validateSync r).
  { unfold Resume.validateSync, r'. simpl. rewrite Hexp.
    rewrite !imap_app, !imap_cons. reflexivity. }
  split; [exact Hsame|].
  unfold save. rewrite Hsame.
  destruct (errs ++ Resume.validateSync r); [|reflexivity].
  destruct (c !! id); reflexivity.
Qed.

Lemma end_date_not_validated_witness :
  Resume.validateSync Sample.jane_backwards = Resume.validateSync Sample.jane
  /\ save 1%N [] Sample.jane_backwards ∅
     = inr (<[1%N := Sample.jane_backwards]> ∅).
Proof.
  exact (end_date_not_validated Sample.jane [] [] Sample.acme
           (JVal Sample.jan_2020) (JVal false) 1%N [] ∅ eq_refl).
Defined.

(** C1 as stated fails: a position that is not current and ended a year
    before it started passes validation and is saved as it is. *)
Lemma backwards_dates_accepted :
  Experience.current Sample.backwards = JVal false
  /\ Experience.startDate Sample.backwards = JVal Sample.jan_2021
  /\ Experience.endDate Sample.backwards = JVal Sample.jan_2020
  /\ Sample.jan_2020 < Sample.jan_2021
  /\ Resume.validateSync Sample.jane_backwards = []
  /\ save 1%N [] Sample.jane_backwards ∅
     = inr {[ 1%N := Sample.jane_backwards ]}.
Proof. repeat split. Qed.

Lemma concat_imap_nil {A B} (f : nat -> A -> list B) (l : list A) (x : A) :
  concat (imap f l) = [] -> In x l -> exists i, f i x = [].
Proof.
  revert f. induction l as [|y l IH]; intros f Hnil Hin; simpl in *.
  - contradiction.
  - apply app_eq_nil in Hnil. destruct Hnil as [Hhead Htail].
    destruct Hin as [->|Hin]; [now exists 0%nat|].
    destruct (IH (f ∘ S) Htail Hin) as [i Hi]. now exists (S i).
Qed.

Lemma required_string_nil (p : string) (v : jsval string) :
  Resume.required_string p v = [] -> non_empty_string v.
Proof.
  unfold Resume.required_string. intros Hnil.
  apply checkRequired_string_spec.
  destruct (Resume.checkRequired_string v); [reflexivity | discriminate].
Qed.

Lemma validateSync_required_strings (r : Resume.t) (v : jsval string) :
  Resume.validateSync r = [] ->
  In v (required_strings r) ->
  non_empty_string v.
Proof.
  unfold Resume.validateSync, Resume.validate_personalInfo, required_strings.
  intros Hnil Hin.
  apply app_eq_nil in Hnil as [_ Hnil].
  apply app_eq_nil in Hnil as [Hinfo Hnil].
  apply app_eq_nil in Hnil as [Hexp Hnil].
  apply app_eq_nil in Hnil as [Hedu Hnil].
  apply app_eq_nil in Hnil as [Hproj Hnil].
  apply app_eq_nil in Hnil as [Hcert _].
  apply app_eq_nil in Hinfo as [Hname Hemail].
  simpl in Hin. destruct Hin as [<-|[<-|Hin]];
    [eapply required_string_nil; eassumption
    |eapply required_string_nil; eassumption|].
  apply in_app_or in Hin. destruct Hin as [Hin|Hin].
  { apply in_flat_map in Hin. destruct Hin as (e & He & Hv).
    destruct (concat_imap_nil _ _ e Hexp He) as [i Hi].
    unfold Resume.validate_experience in Hi.
    apply app_eq_nil in Hi. destruct Hi as [Hc Hi].
    apply app_eq_nil in Hi. destruct Hi as [Hp _].
    destruct Hv as [<-|[<-|[]]]; eapply required_string_nil; eassumption. }
  apply in_app_or in Hin. destruct Hin as [Hin|Hin].
  { apply in_flat_map in Hin. destruct Hin as (e & He & Hv).
    destruct (concat_imap_nil _ _ e Hedu He) as [i Hi].
    unfold Resume.validate_education in Hi.
    apply app_eq_nil in Hi. destruct Hi as [Hc Hi].
    apply app_eq_nil in Hi. destruct Hi as [Hp _].
    destruct Hv as [<-|[<-|[]]]; eapply required_string_nil; eassumption. }
  apply in_app_or in Hin. destruct Hin as [Hin|Hin].
  { apply in_map_iff in Hin. destruct Hin as (p & <- & Hp).
    destruct (concat_imap_nil _ _ p Hproj Hp) as [i Hi].
    eapply required_string_nil; eassumption. }
  apply in_map_iff in Hin. destruct Hin as (p & <- & Hp).
  destruct (concat_imap_nil _ _ p Hcert Hp) as [i Hi].
  eapply required_string_nil; eassumption.
Qed.

(** C5, as the code has it: in every document that [save] accepts, each
    required String path (full name, email, company and position of an
    experience entry, institution and degree of an education entry, name
    of a project, name of a certification) holds a string that is not the
    empty string; a document in which one of them is missing, null or the
    empty string is rejected with an error.  The value is taken as it is,
    without trimming. *)
Theorem required_strings_non_empty (id : ObjectId)
    (errs : list Resume.ValidatorError) (r : Resume.t)
    (c : gmap ObjectId Resume.t) :
  (forall c', save id errs r c = inr c' ->
     Forall non_empty_string (required_strings r))
  /\ (Exists (fun v => ~ non_empty_string v) (required_strings r) ->
      exists m, save id errs r c = inl m).
Proof.
  assert (Hacc : forall c', save id errs r c = inr c' ->
                 Forall non_empty_string (required_strings r)).
  { intros c' Hsave. apply save_accepts in Hsave.
    destruct Hsave as (_ & Hvalid & _).
    apply List.Forall_forall. intros v Hv.
    now apply (validateSync_required_strings r). }
  split; [exact Hacc|].
  intros Hex. destruct (save id errs r c) as [m|c'] eqn:Hsave; [eauto|].
  exfalso. apply List.Exists_exists in Hex. destruct Hex as (v & Hv & Hbad).
  apply Hbad. specialize (Hacc c' eq_refl).
  rewrite List.Forall_forall in Hacc. now apply Hacc.
Qed.

Lemma required_strings_non_empty_witness :
  Forall non_empty_string (required_strings Sample.jane)
  /\ exists m, save 1%N [] Sample.no_name ∅ = inl m.
Proof.
  split.
  - apply (proj1 (required_strings_non_empty 1%N [] Sample.jane ∅)
             {[ 1%N := Sample.jane ]}).
    reflexivity.
  - apply (proj2 (required_strings_non_empty 1%N [] Sample.no_name ∅)).
    apply Exists_cons_hd. intros (s & Hs & _). discriminate.
Defined.

(** C5 as stated fails: a full name of three spaces is empty after
    trimming, and the document passes validation and is saved. *)
Lemma whitespace_name_accepted :
  PersonalInfo.fullName (Resume.personalInfo Sample.blank_name) = JVal "   "
  /\ trim "   " = ""
  /\ Resume.validateSync Sample.blank_name = []
  /\ save 1%N [] Sample.blank_name ∅ = inr {[ 1%N := Sample.blank_name ]}.
Proof. repeat split. Qed.

(** The create route answers 400 with the message of the error [save]
    throws, and leaves the state as it was. *)
Lemma post_resume_rejected (env : Env) (body : json) (user oid : ObjectId)
    (w : World) (errs : list Resume.ValidatorError) (cand : Resume.t)
    (m : string) :
  castResume env body = (errs, cand) ->
  save oid errs
    (Resume.apply_defaults (Resume.set_userId (JVal user) cand))
    (resumes w) = inl m ->
  post_resume env body user oid w = (Json 400 (error_body m), w).
Proof.
  intros Hcast Hsave. unfold post_resume. now rewrite Hcast, Hsave.
Qed.


(* ===================================================================== *)
(** ** The router on the collection: further properties *)
(* ===================================================================== *)

Lemma oid_is_true (user : ObjectId) (v : jsval ObjectId) :
  oid_is user v = true <-> v = JVal user.
Proof.
  unfold oid_is. destruct v as [| |owner];
    try (split; intros ?; discriminate).
  destruct (N.eqb_spec owner user) as [->|Hne].
  - split; reflexivity.
  - split; [discriminate | intros [= ?]; contradiction].
Qed.

Lemma bool_is_true (b : bool) (v : jsval bool) :
  bool_is b v = true <-> v = JVal b.
Proof.
  unfold bool_is. destruct v as [| |c];
    try (split; intros ?; discriminate).
  destruct c, b; simpl; split; intros ?; try reflexivity; discriminate.
Qed.

Lemma matches_owned_active (id user : ObjectId) (r : Resume.t) :
  matches (mkFilter id user (Some true)) r = true
  <-> Resume.userId r = JVal user /\ Resume.isActive r = JVal true.
Proof.
  unfold matches. simpl.
  rewrite andb_true_iff, oid_is_true, bool_is_true. reflexivity.
Qed.

Lemma matches_owner (id user : ObjectId) (r : Resume.t) :
  matches (mkFilter id user None) r = true <-> Resume.userId r = JVal user.
Proof.
  unfold matches. simpl. rewrite andb_true_r. apply oid_is_true.
Qed.

Lemma findOne_Some (q : Filter) (c : gmap ObjectId Resume.t) (r : Resume.t) :
  findOne q c = Some r <-> c !! f_id q = Some r /\ matches q r = true.
Proof.
  unfold findOne. destruct (c !! f_id q) as [r0|].
  - destruct (matches q r0) eqn:Hm.
    + split; [intros [= <-]; auto | intros [[= <-] _]; reflexivity].
    + split; [discriminate | intros [[= <-] ?]; congruence].
  - split; [discriminate | intros [? _]; discriminate].
Qed.

Lemma save_inr (id : ObjectId) (errs : list Resume.ValidatorError)
    (r : Resume.t) (c c' : gmap ObjectId Resume.t) :
  save id errs r c = inr c' <->
  errs = [] /\ Resume.validateSync r = [] /\ c !! id = None
  /\ c' = <[id := r]> c.
Proof.
  unfold save. split.
  - destruct (errs ++ Resume.validateSync r) as [|e es] eqn:Herrs;
      [|discriminate].
    apply app_eq_nil in Herrs. destruct Herrs as [-> ->].
    destruct (c !! id); [discriminate|]. intros [= <-]. repeat split.
  - intros (-> & -> & -> & ->). reflexivity.
Qed.

Lemma findOne_owned_active (id user : ObjectId)
    (c : gmap ObjectId Resume.t) (r : Resume.t) :
  findOne (mkFilter id user (Some true)) c = Some r
  <-> c !! id = Some r
      /\ Resume.userId r = JVal user
      /\ Resume.isActive r = JVal true.
Proof.
  rewrite findOne_Some, matches_owned_active. reflexivity.
Qed.

(** Creating a resume has two outcomes.  Either the answer is 201 with the
    submitted document, defaults filled in and the requester as its owner
    whatever [userId] the body carried, and the collection gains that
    document under a fresh [_id]; or the answer is 400 with the message of
    the error and the state is as it was. *)
Theorem post_resume_outcome (env : Env) (body : json) (user oid : ObjectId)
    (w : World) :
  let r := Resume.apply_defaults
             (Resume.set_userId (JVal user) (snd (castResume env body))) in
  (post_resume env body user oid w
   = (Json 201 (success_data oid r), set_resumes (<[oid := r]> (resumes w)) w)
   /\ Resume.userId r = JVal user
   /\ Resume.validateSync r = []
   /\ resumes w !! oid = None)
  \/ (exists m,
        post_resume env body user oid w = (Json 400 (error_body m), w)).
Proof.
  intros r. unfold post_resume. subst r.
  destruct (castResume env body) as [errs cand]. simpl.
  destruct (save oid errs _ (resumes w)) as [m|c] eqn:Hsave.
  - right. eauto.
  - left. apply save_inr in Hsave. destruct Hsave as (_ & Hvalid & Hfresh & ->).
    repeat split; assumption.
Qed.

(** A resume that was just created and is active is what the same user
    reads back under the [_id] of the answer. *)
Theorem post_then_get (env : Env) (body : json) (user oid : ObjectId)
    (w : World) (r : Resume.t) :
  fst (post_resume env body user oid w) = Json 201 (success_data oid r) ->
  Resume.isActive r = JVal true ->
  get_resume oid user (snd (post_resume env body user oid w))
  = (Json 200 (success_data oid r), snd (post_resume env body user oid w)).
Proof.
  unfold post_resume. destruct (castResume env body) as [errs cand].
  destruct (save oid errs _ (resumes w)) as [m|c] eqn:Hsave; simpl;
    [discriminate|].
  intros [= <-] Hactive.
  apply save_inr in Hsave. destruct Hsave as (_ & _ & _ & ->).
  unfold get_resume. simpl.
  assert (Hfind : findOne (mkFilter oid user (Some true))
                    (<[oid := Resume.apply_defaults
                                (Resume.set_userId (JVal user) cand)]>
                       (resumes w))
                  = Some (Resume.apply_defaults
                            (Resume.set_userId (JVal user) cand))).
  { apply findOne_owned_active.
    split; [apply lookup_insert_eq|]. split; [reflexivity | exact Hactive]. }
  rewrite Hfind. reflexivity.
Qed.

Lemma post_then_get_witness :
  get_resume 2%N 7%N (snd (post_resume Sample.env J_null 7%N 2%N Sample.world))
  = (Json 200 (success_data 2%N Sample.jane),
     snd (post_resume Sample.env J_null 7%N 2%N Sample.world)).
Proof.
  apply (post_then_get Sample.env J_null 7%N 2%N Sample.world Sample.jane);
    reflexivity.
Defined.

(** Reading one resume answers 200 with a document exactly when a document
    with that [_id] is stored, belongs to the requester and has
    [isActive] equal to [true]; the answer then carries that document. *)
Theorem get_resume_found_iff (id user : ObjectId) (w : World)
    (r : Resume.t) :
  get_resume id user w = (Json 200 (success_data id r), w)
  <-> resumes w !! id = Some r
      /\ Resume.userId r = JVal user
      /\ Resume.isActive r = JVal true.
Proof.
  rewrite <- findOne_owned_active. unfold get_resume.
  destruct (findOne (mkFilter id user (Some true)) (resumes w)) as [r0|].
  - split; [intros [= <-]; reflexivity | intros [= <-]; reflexivity].
  - split; discriminate.
Qed.

Lemma get_resume_found_iff_witness :
  get_resume 1%N 7%N Sample.world
  = (Json 200 (success_data 1%N Sample.jane), Sample.world).
Proof.
  apply (proj2 (get_resume_found_iff 1%N 7%N Sample.world Sample.jane)).
  repeat split.
Defined.

Lemma findOne_owner (id user : ObjectId) (c : gmap ObjectId Resume.t)
    (r : Resume.t) :
  c !! id = Some r ->
  Resume.userId r = JVal user ->
  findOne (mkFilter id user None) c = Some r.
Proof.
  intros Hl Ho. apply findOne_Some. split; [exact Hl|].
  now apply matches_owner.
Qed.

(** Deleting is a soft delete.  The owner gets 200 "Resume deleted
    successfully"; the document stays in the collection with [isActive]
    set to [false], [updatedAt] set to the time of the request, and every
    other path, [createdAt] included, as it was; from then on reading it
    and asking for its PDF answer 404, also for the owner. *)
Theorem delete_is_soft (env : Env) (now : Z) (id user : ObjectId)
    (s : Stamped.Store) (r : Resume.t) :
  resumes (Stamped.state s) !! id = Some r ->
  Resume.userId r = JVal user ->
  let s' := snd (Stamped.delete_resume_at now id user s) in
  fst (Stamped.delete_resume_at now id user s)
  = Json 200 (mkBody "success" (Some "Resume deleted successfully")
                None None)
  /\ resumes (Stamped.state s') !! id
     = Some (Resume.set_isActive (JVal false) r)
  /\ Stamped.timestamps s' !! id
     = Some (Stamped.mkTimestamps
               (match Stamped.timestamps s !! id with
                | Some t => Stamped.createdAt t
                | None => JUndefined
                end)
               (JVal now))
  /\ get_resume id user (Stamped.state s') = (not_found, Stamped.state s')
  /\ get_resume_pdf env id user (Stamped.state s')
     = (not_found, Stamped.state s').
Proof.
  intros Hl Ho s'. subst s'.
  unfold Stamped.delete_resume_at, delete_resume, findOneAndUpdate.
  rewrite (findOne_owner id user _ r Hl Ho). simpl.
  assert (Hgone : findOne (mkFilter id user (Some true))
                    (<[id := Resume.set_isActive (JVal false) r]>
                       (resumes (Stamped.state s)))
                  = None).
  { destruct (findOne _ _) as [r0|] eqn:Hfind; [|reflexivity].
    apply findOne_Some in Hfind. simpl in Hfind. destruct Hfind as [Hl0 Hm].
    rewrite lookup_insert_eq in Hl0. injection Hl0 as <-.
    apply matches_owned_active in Hm. destruct Hm as [_ Hactive].
    discriminate. }
  split; [reflexivity|]. split; [apply lookup_insert_eq|].
  split; [apply lookup_insert_eq|].
  unfold get_resume, get_resume_pdf. simpl. rewrite Hgone. split; reflexivity.
Qed.

Lemma delete_is_soft_witness :
  fst (Stamped.delete_resume_at 150 1%N 7%N Fixture.store)
  = Json 200 (mkBody "success" (Some "Resume deleted successfully")
                None None)
  /\ resumes (Stamped.state
                (snd (Stamped.delete_resume_at 150 1%N 7%N Fixture.store)))
       !! 1%N
     = Some Fixture.jane_deleted
  /\ Stamped.timestamps
       (snd (Stamped.delete_resume_at 150 1%N 7%N Fixture.store)) !! 1%N
     = Some (Stamped.mkTimestamps (JVal 100) (JVal 150))
  /\ get_resume 1%N 7%N
       (Stamped.state
          (snd (Stamped.delete_resume_at 150 1%N 7%N Fixture.store)))
     = (not_found,
        Stamped.state
          (snd (Stamped.delete_resume_at 150 1%N 7%N Fixture.store)))
  /\ get_resume_pdf Sample.env 1%N 7%N
       (Stamped.state
          (snd (Stamped.delete_resume_at 150 1%N 7%N Fixture.store)))
     = (not_found,
        Stamped.state
          (snd (Stamped.delete_resume_at 150 1%N 7%N Fixture.store))).
Proof.
  apply (delete_is_soft Sample.env 150 1%N 7%N Fixture.store Sample.jane);
    reflexivity.
Defined.

(** The delete route does not look at [isActive]: deleting a resume that
    is already deleted answers 200 again, not 404.  The documents are as
    they were; the one change is the [updatedAt] of that document, which
    is set again, to the time of the second request. *)
Theorem delete_again_succeeds (now : Z) (id user : ObjectId)
    (s : Stamped.Store) (r : Resume.t) :
  resumes (Stamped.state s) !! id = Some r ->
  Resume.userId r = JVal user ->
  Resume.isActive r = JVal false ->
  Stamped.delete_resume_at now id user s
  = (Json 200 (mkBody "success" (Some "Resume deleted successfully")
                 None None),
     Stamped.mkStore (Stamped.state s)
       (<[id := Stamped.mkTimestamps
                  (match Stamped.timestamps s !! id with
                   | Some t => Stamped.createdAt t
                   | None => JUndefined
                   end)
                  (JVal now)]> (Stamped.timestamps s))).
Proof.
  intros Hl Ho Hinactive.
  unfold Stamped.delete_resume_at, delete_resume, findOneAndUpdate.
  rewrite (findOne_owner id user _ r Hl Ho). simpl.
  assert (Hsame : Resume.set_isActive (JVal false) r = r).
  { destruct r. simpl in Hinactive. subst. reflexivity. }
  rewrite Hsame, (insert_id _ _ _ Hl).
  destruct s as [[c log] ts]. reflexivity.
Qed.

Lemma delete_again_succeeds_witness :
  Stamped.delete_resume_at 200 1%N 7%N Fixture.store_deleted
  = (Json 200 (mkBody "success" (Some "Resume deleted successfully")
                 None None),
     Stamped.mkStore Fixture.world_deleted
       (<[1%N := Stamped.mkTimestamps (JVal 100) (JVal 200)]>
          (Stamped.timestamps Fixture.store_deleted))).
Proof.
  apply (delete_again_succeeds 200 1%N 7%N Fixture.store_deleted
           Fixture.jane_deleted); reflexivity.
Defined.

(** Updating and deleting act on the addressed document only: every
    other document of the collection, and the log of provider calls, are
    as they were. *)
Theorem update_touches_one_document (env : Env) (id id' user : ObjectId)
    (body : json) (w : World) :
  id' <> id ->
  resumes (snd (put_resume env id user body w)) !! id' = resumes w !! id'
  /\ resumes (snd (delete_resume id user w)) !! id' = resumes w !! id'
  /\ providerCalls (snd (put_resume env id user body w)) = providerCalls w
  /\ providerCalls (snd (delete_resume id user w)) = providerCalls w.
Proof.
  intros Hne. unfold put_resume, delete_resume, findOneAndUpdate.
  destruct (validateUpdate env body);
    destruct (findOne (mkFilter id user (Some true)) (resumes w));
    destruct (findOne (mkFilter id user None) (resumes w));
    simpl; rewrite ?lookup_insert_ne by congruence; repeat split.
Qed.

Lemma update_touches_one_document_witness :
  resumes (snd (delete_resume 1%N 7%N Fixture.world3)) !! 2%N
  = resumes Fixture.world3 !! 2%N.
Proof.
  apply (update_touches_one_document Sample.env 1%N 2%N 7%N J_null
           Fixture.world3).
  discriminate.
Defined.

(** The owner of an active resume who sends an update that passes casting
    and the update validators gets 200 with the document as it is after
    the update ([new: true]), and that document replaces the stored one. *)
Theorem put_by_owner (env : Env) (id user : ObjectId) (body : json)
    (w : World) (r : Resume.t) :
  resumes w !! id = Some r ->
  Resume.userId r = JVal user ->
  Resume.isActive r = JVal true ->
  validateUpdate env body = [] ->
  put_resume env id user body w
  = (Json 200 (success_data id (applyUpdate env body r)),
     set_resumes (<[id := applyUpdate env body r]> (resumes w)) w).
Proof.
  intros Hl Ho Ha Hvalid. unfold put_resume, findOneAndUpdate.
  rewrite Hvalid.
  assert (Hfind : findOne (mkFilter id user (Some true)) (resumes w)
                  = Some r).
  { apply findOne_Some. split; [exact Hl|].
    apply matches_owned_active. split; assumption. }
  rewrite Hfind. reflexivity.
Qed.

Lemma put_by_owner_witness :
  put_resume Sample.env 1%N 7%N
    (J_object [("template", J_string "classic")]) Sample.world
  = (Json 200
       (success_data 1%N (Resume.set_template (JVal "classic") Sample.jane)),
     set_resumes
       (<[1%N := Resume.set_template (JVal "classic") Sample.jane]>
          (resumes Sample.world))
       Sample.world).
Proof.
  apply (put_by_owner Sample.env 1%N 7%N
           (J_object [("template", J_string "classic")])
           Sample.world Sample.jane); reflexivity.
Defined.

(** No route takes a document out of the collection: a document stored
    before a request is still stored, under the same [_id], after it. *)
Theorem routes_never_remove (env : Env) (i id user oid : ObjectId)
    (body : json) (req : GenerateRequest) (w : World) :
  is_Some (resumes w !! i) ->
  is_Some (resumes (snd (post_resume env body user oid w)) !! i)
  /\ is_Some (resumes (snd (get_resume id user w)) !! i)
  /\ is_Some (resumes (snd (put_resume env id user body w)) !! i)
  /\ is_Some (resumes (snd (delete_resume id user w)) !! i)
  /\ is_Some (resumes (snd (post_generate env req user oid w)) !! i)
  /\ is_Some (resumes (snd (get_resume_pdf env id user w)) !! i).
Proof.
  intros Hi.
  assert (Hins : forall k (x : Resume.t),
            is_Some (<[k := x]> (resumes w) !! i)).
  { intros k x. apply lookup_insert_is_Some.
    destruct (decide (k = i)); [left | right]; auto. }
  repeat split.
  - unfold post_resume. destruct (castResume env body) as [errs cand].
    destruct (save _ _ _ _) as [m|c] eqn:Hsave; simpl; [exact Hi|].
    apply save_inr in Hsave. destruct Hsave as (_ & _ & _ & ->). apply Hins.
  - unfold get_resume. destruct (findOne _ _); exact Hi.
  - unfold put_resume, findOneAndUpdate.
    destruct (validateUpdate env body); [|exact Hi].
    destruct (findOne _ _); simpl; [apply Hins | exact Hi].
  - unfold delete_resume, findOneAndUpdate.
    destruct (findOne _ _); simpl; [apply Hins | exact Hi].
  - unfold post_generate.
    destruct (negb (truthy_str (prompt req))); [exact Hi|].
    destruct (generateContent env _) as [m|content]; [exact Hi|].
    destruct (JSON_parse env content) as [parsed|]; [|exact Hi].
    destruct (castResume env parsed) as [errs cand].
    destruct (save _ _ _ _) as [m|c] eqn:Hsave; simpl; [exact Hi|].
    apply save_inr in Hsave. destruct Hsave as (_ & _ & _ & ->). apply Hins.
  - unfold get_resume_pdf.
    destruct (findOne _ _); [destruct (header_value_ok _)|]; exact Hi.
Qed.

Lemma routes_never_remove_witness :
  is_Some (resumes (snd (delete_resume 1%N 7%N Sample.world)) !! 1%N).
Proof.
  apply (routes_never_remove Sample.env 1%N 1%N 7%N 2%N J_null
           (mkGenerateRequest JUndefined JUndefined) Sample.world).
  exists Sample.jane. reflexivity.
Defined.

(** Creating a resume, by hand or by generation, never changes a
    document that is already stored: not even one stored under the [_id]
    chosen for the new document. *)
Theorem creation_keeps_existing (env : Env) (i user oid : ObjectId)
    (body : json) (req : GenerateRequest) (w : World) (r : Resume.t) :
  resumes w !! i = Some r ->
  resumes (snd (post_resume env body user oid w)) !! i = Some r
  /\ resumes (snd (post_generate env req user oid w)) !! i = Some r.
Proof.
  intros Hi.
  assert (Hins : forall (x : Resume.t), resumes w !! oid = None ->
            <[oid := x]> (resumes w) !! i = Some r).
  { intros x Hfresh. rewrite lookup_insert_ne; [exact Hi | congruence]. }
  split.
  - unfold post_resume. destruct (castResume env body) as [errs cand].
    destruct (save _ _ _ _) as [m|c] eqn:Hsave; simpl; [exact Hi|].
    apply save_inr in Hsave. destruct Hsave as (_ & _ & Hfresh & ->).
    now apply Hins.
  - unfold post_generate.
    destruct (negb (truthy_str (prompt req))); [exact Hi|].
    destruct (generateContent env _) as [m|content]; [exact Hi|].
    destruct (JSON_parse env content) as [parsed|]; [|exact Hi].
    destruct (castResume env parsed) as [errs cand].
    destruct (save _ _ _ _) as [m|c] eqn:Hsave; simpl; [exact Hi|].
    apply save_inr in Hsave. destruct Hsave as (_ & _ & Hfresh & ->).
    now apply Hins.
Qed.

Lemma creation_keeps_existing_witness :
  resumes (snd (post_resume Sample.env J_null 8%N 1%N Sample.world)) !! 1%N
  = Some Sample.jane.
Proof.
  apply (creation_keeps_existing Sample.env 1%N 8%N 1%N J_null
           (mkGenerateRequest JUndefined JUndefined) Sample.world
           Sample.jane).
  reflexivity.
Defined.

(* ===================================================================== *)
(** ** Generation: further properties *)
(* ===================================================================== *)

Lemma default_to_modern_twice (t : jsval string) :
  Resume.default_to "modern" (Resume.default_to "modern" t)
  = Resume.default_to "modern" t.
Proof. destruct t; reflexivity. Qed.

(** What a successful generation stores does not depend on the provider
    for its provenance: when the answer is 201, the document in it is the
    one stored under the new [_id], its owner is the requester, it is
    marked [aiGenerated], it keeps the prompt of the request, and its
    template is the requested one ('modern' when the request names
    none), whatever the provider's JSON said on these paths. *)
Theorem generated_resume_provenance (env : Env) (req : GenerateRequest)
    (user oid : ObjectId) (w : World) (b : Body) :
  fst (post_generate env req user oid w) = Json 201 b ->
  exists r,
    data b = Some (oid, r)
    /\ resumes (snd (post_generate env req user oid w)) !! oid = Some r
    /\ resumes w !! oid = None
    /\ Resume.userId r = JVal user
    /\ Resume.aiGenerated r = JVal true
    /\ Resume.aiPrompt r = prompt req
    /\ Resume.template r = Resume.default_to "modern" (req_template req).
Proof.
  unfold post_generate.
  destruct (negb (truthy_str (prompt req))); [discriminate|].
  destruct (generateContent env _) as [m|content]; [discriminate|].
  destruct (JSON_parse env content) as [parsed|]; [|discriminate].
  destruct (castResume env parsed) as [errs cand].
  destruct (save _ _ _ _) as [m|c] eqn:Hsave; [discriminate|].
  apply save_inr in Hsave. destruct Hsave as (_ & _ & Hfresh & ->).
  simpl. intros [= <-]. eexists. split; [reflexivity|].
  split; [apply lookup_insert_eq|]. split; [exact Hfresh|].
  simpl. rewrite default_to_modern_twice. repeat split.
Qed.

Lemma generated_resume_provenance_witness :
  exists r,
    resumes (snd (post_generate Fixture.env
                    (mkGenerateRequest (JVal "Frontend engineer") JUndefined)
                    9%N 2%N Sample.world)) !! 2%N = Some r
    /\ Resume.userId r = JVal 9%N
    /\ Resume.aiGenerated r = JVal true
    /\ Resume.aiPrompt r = JVal "Frontend engineer"
    /\ Resume.template r = JVal "modern".
Proof.
  destruct (generated_resume_provenance Fixture.env
              (mkGenerateRequest (JVal "Frontend engineer") JUndefined)
              9%N 2%N Sample.world _ eq_refl)
    as (r & _ & Hstored & _ & Ho & Hai & Hp & Ht).
  exists r. repeat split; assumption.
Defined.

Lemma enum_string_rejects (p : string) (values : list string) (t : string) :
  existsb (String.eqb t) values = false ->
  Resume.enum_string p values (JVal t) = [Resume.mkError p (Resume.EnumMismatch t)].
Proof. intros H. unfold Resume.enum_string. now rewrite H. Qed.

(** The template of a generation request is checked only when the new
    document is saved.  A request with a prompt and a template outside
    the enum still sends the prompt to the provider; whatever comes back,
    the answer is a 500 and the collection is as it was. *)
Theorem generate_with_unknown_template (env : Env) (req : GenerateRequest)
    (user oid : ObjectId) (w : World) (t : string) :
  non_empty_string (prompt req) ->
  req_template req = JVal t ->
  existsb (String.eqb t) Resume.template_enum = false ->
  (exists b, fst (post_generate env req user oid w) = Json 500 b)
  /\ resumes (snd (post_generate env req user oid w)) = resumes w
  /\ providerCalls (snd (post_generate env req user oid w))
     = providerCalls w ++ [geminiPrompt_text (aiPrompt_text (prompt req))].
Proof.
  intros Hne Ht Hout. apply truthy_str_non_empty in Hne.
  unfold post_generate. rewrite Hne, Ht. simpl.
  destruct (generateContent env _) as [m|content];
    [repeat split; eexists; reflexivity|].
  destruct (JSON_parse env content) as [parsed|];
    [|repeat split; eexists; reflexivity].
  destruct (castResume env parsed) as [errs cand].
  destruct (save _ _ _ _) as [m|c] eqn:Hsave;
    [repeat split; eexists; reflexivity|].
  exfalso. apply save_inr in Hsave. destruct Hsave as (_ & Hvalid & _).
  unfold Resume.validateSync in Hvalid.
  repeat (apply app_eq_nil in Hvalid; destruct Hvalid as [_ Hvalid]).
  change (Resume.enum_string "template" Resume.template_enum (JVal t) = [])
    in Hvalid.
  rewrite (enum_string_rejects _ _ _ Hout) in Hvalid. discriminate.
Qed.

Lemma generate_with_unknown_template_witness :
  (exists b,
     fst (post_generate Fixture.env
            (mkGenerateRequest (JVal "Frontend engineer") (JVal "fancy"))
            9%N 2%N Sample.world) = Json 500 b)
  /\ resumes (snd (post_generate Fixture.env
                     (mkGenerateRequest (JVal "Frontend engineer")
                        (JVal "fancy"))
                     9%N 2%N Sample.world))
     = resumes Sample.world.
Proof.
  destruct (generate_with_unknown_template Fixture.env
              (mkGenerateRequest (JVal "Frontend engineer") (JVal "fancy"))
              9%N 2%N Sample.world "fancy") as (Hb & Hc & _).
  - exists "Frontend engineer". split; [reflexivity | discriminate].
  - reflexivity.
  - reflexivity.
  - split; assumption.
Defined.

(** Outside development the generation route gives no detail of an
    error: the [error] field of its answers is absent or is the fixed
    text "Internal server error", whatever the provider or the validators
    said. *)
Theorem generate_hides_error_detail (env : Env) (req : GenerateRequest)
    (user oid : ObjectId) (w : World) (code : Z) (b : Body) :
  development env = false ->
  fst (post_generate env req user oid w) = Json code b ->
  error b = None \/ error b = Some "Internal server error".
Proof.
  intros Hdev. unfold post_generate, generation_failed. rewrite Hdev.
  destruct (negb (truthy_str (prompt req))); [intros [= _ <-]; now left|].
  destruct (generateContent env _) as [m|content];
    [intros [= _ <-]; now right|].
  destruct (JSON_parse env content) as [parsed|];
    [|intros [= _ <-]; now left].
  destruct (castResume env parsed) as [errs cand].
  destruct (save _ _ _ _) as [m|c]; intros [= _ <-]; [now right | now left].
Qed.

Lemma generate_hides_error_detail_witness :
  error (mkBody "error" (Some "Failed to generate AI resume") None
           (Some "Internal server error")) = None
  \/ error (mkBody "error" (Some "Failed to generate AI resume") None
              (Some "Internal server error"))
     = Some "Internal server error".
Proof.
  apply (generate_hides_error_detail Fixture.env
           (mkGenerateRequest (JVal "Frontend engineer") (JVal "fancy"))
           9%N 2%N Sample.world 500); reflexivity.
Defined.

(* ===================================================================== *)
(** ** Listing: properties of [router.get('/')] *)
(* ===================================================================== *)

Lemma owned_active_true (user : ObjectId) (r : Resume.t) :
  owned_active user r = true
  <-> Resume.userId r = JVal user /\ Resume.isActive r = JVal true.
Proof.
  unfold owned_active.
  rewrite andb_true_iff, oid_is_true, bool_is_true. reflexivity.
Qed.

(** The list holds exactly the requester's active resumes, each once: a
    document is listed under its [_id] if and only if it is stored under
    that [_id], belongs to the requester and has [isActive] equal to
    [true], which is also exactly when reading it by [_id] returns it.
    The answer is 200 and the state is as it was. *)
Theorem list_is_own_active_resumes (updatedAt : ObjectId -> Z)
    (user : ObjectId) (w : World) :
  (forall id r,
     (id, r) ∈ list_data (snd (fst (get_resumes updatedAt user w)))
     <-> resumes w !! id = Some r
         /\ Resume.userId r = JVal user
         /\ Resume.isActive r = JVal true)
  /\ (forall id r,
        (id, r) ∈ list_data (snd (fst (get_resumes updatedAt user w)))
        <-> get_resume id user w = (Json 200 (success_data id r), w))
  /\ NoDup (map fst (list_data (snd (fst (get_resumes updatedAt user w)))))
  /\ fst (fst (get_resumes updatedAt user w)) = 200
  /\ snd (get_resumes updatedAt user w) = w.
Proof.
  assert (Hmem : forall id r,
     (id, r) ∈ list_data (snd (fst (get_resumes updatedAt user w)))
     <-> resumes w !! id = Some r
         /\ Resume.userId r = JVal user
         /\ Resume.isActive r = JVal true).
  { intros id r. unfold get_resumes. simpl.
    rewrite merge_sort_Permutation, elem_of_map_to_list.
    unfold find. rewrite map_lookup_filter_Some. simpl.
    rewrite owned_active_true. reflexivity. }
  split; [exact Hmem|]. split.
  { intros id r. rewrite Hmem, <- findOne_owned_active. unfold get_resume.
    destruct (findOne (mkFilter id user (Some true)) (resumes w)) as [r0|].
    - split; [intros [= <-]; reflexivity | intros [= <-]; reflexivity].
    - split; discriminate. }
  split; [|split; reflexivity].
  unfold get_resumes. simpl.
  rewrite merge_sort_Permutation. exact (NoDup_fst_map_to_list _).
Qed.

(** The three resumes of the fixture: user 7 sees its two, the one
    updated last first, and not the one of user 8. *)
Example list_of_user_7 :
  map fst (list_data (snd (fst (get_resumes Fixture.stamps 7%N
                                  Fixture.world3))))
  = [2%N; 1%N].
Proof. vm_compute. reflexivity. Qed.

(* ===================================================================== *)
(** ** Rendering: further properties of [generatePDFContent] *)
(* ===================================================================== *)

Section ContentLemmas.

Variable env : Env.

Lemma adds_content_invoke c : adds_content (invoke c).
Proof. intros doc. reflexivity. Qed.

Lemma adds_content_id : adds_content (fun doc => doc).
Proof. intros [s m cs]. unfold content. simpl. now rewrite app_nil_r. Qed.

Lemma content_compose f g :
  adds_content f -> adds_content g ->
  content (fun doc => g (f doc)) = content f ++ content g.
Proof.
  intros Hf Hg. unfold content at 1. rewrite Hg. reflexivity.
Qed.

Lemma adds_content_compose f g :
  adds_content f -> adds_content g -> adds_content (fun doc => g (f doc)).
Proof.
  intros Hf Hg doc. rewrite (content_compose f g Hf Hg).
  rewrite Hg, Hf. simpl. now rewrite app_assoc.
Qed.

Lemma adds_content_when c f : adds_content f -> adds_content (when c f).
Proof.
  intros Hf. unfold when. destruct c; [exact Hf | apply adds_content_id].
Qed.

Lemma content_forEach {A} (l : list A) body :
  (forall x, adds_content (body x)) ->
  adds_content (forEach l body)
  /\ content (forEach l body) = flat_map (fun x => content (body x)) l.
Proof.
  intros Hb. unfold forEach.
  induction l as [|x l [IH1 IH2]]; simpl.
  - split; [apply adds_content_id | reflexivity].
  - split.
    + apply (adds_content_compose (body x) _ (Hb x) IH1).
    + rewrite (content_compose (body x) _ (Hb x) IH1). now rewrite IH2.
Qed.

Lemma adds_content_forEach {A} (l : list A) body :
  (forall x, adds_content (body x)) -> adds_content (forEach l body).
Proof. intros Hb. now apply content_forEach. Qed.

Ltac content_chain :=
  repeat first
    [ apply adds_content_invoke
    | apply adds_content_when
    | apply adds_content_forEach; intros ?
    | apply (adds_content_compose _ (invoke _))
    | apply (adds_content_compose _ (when _ _))
    | apply (adds_content_compose _ (forEach _ _)) ].

Lemma adds_content_header p : adds_content (header p).
Proof.
  unfold header, do_fontSize, do_font, do_text_center, do_moveDown.
  content_chain.
Qed.

Lemma adds_content_summary_section p : adds_content (summary_section p).
Proof.
  unfold summary_section, do_fontSize, do_font, do_text, do_moveDown.
  content_chain.
Qed.

Lemma adds_content_experience_entry e :
  adds_content (experience_entry env e).
Proof.
  unfold experience_entry, do_fontSize, do_font, do_text, do_moveDown.
  content_chain.
Qed.

Lemma adds_content_education_entry e : adds_content (education_entry e).
Proof.
  unfold education_entry, do_fontSize, do_font, do_text, do_moveDown.
  content_chain.
Qed.

Lemma adds_content_project_entry p : adds_content (project_entry p).
Proof.
  unfold project_entry, do_fontSize, do_font, do_text, do_moveDown.
  content_chain.
Qed.

Lemma adds_content_certification_entry c :
  adds_content (certification_entry env c).
Proof.
  unfold certification_entry, do_fontSize, do_font, do_text, do_moveDown.
  content_chain.
Qed.

Lemma adds_content_experience_section l :
  adds_content (experience_section env l).
Proof.
  unfold experience_section, do_fontSize, do_font, do_text.
  apply adds_content_when.
  apply (adds_content_compose _ (forEach _ _)); [content_chain|].
  apply adds_content_forEach, adds_content_experience_entry.
Qed.

Lemma adds_content_education_section l :
  adds_content (education_section l).
Proof.
  unfold education_section, do_fontSize, do_font, do_text.
  apply adds_content_when.
  apply (adds_content_compose _ (forEach _ _)); [content_chain|].
  apply adds_content_forEach, adds_content_education_entry.
Qed.

Lemma adds_content_skills_section s : adds_content (skills_section s).
Proof.
  destruct s as [| |sk]; simpl; try apply adds_content_id.
  unfold skills_body, do_fontSize, do_font, do_text, do_moveDown.
  content_chain.
Qed.

Lemma adds_content_projects_section l : adds_content (projects_section l).
Proof.
  unfold projects_section, do_fontSize, do_font, do_text.
  apply adds_content_when.
  apply (adds_content_compose _ (forEach _ _)); [content_chain|].
  apply adds_content_forEach, adds_content_project_entry.
Qed.

Lemma adds_content_certifications_section l :
  adds_content (certifications_section env l).
Proof.
  unfold certifications_section, do_fontSize, do_font, do_text.
  apply adds_content_when.
  apply (adds_content_compose _ (forEach _ _)); [content_chain|].
  apply adds_content_forEach, adds_content_certification_entry.
Qed.

End ContentLemmas.

(** [generatePDFContent] only adds to the document it is given: the
    options and the calls already made are kept, and what is added after
    them is what the resume gives on a fresh document, whatever the
    document held before. *)
Theorem generatePDFContent_only_appends (env : Env) (doc : PDFDocument)
    (r : Resume.t) :
  generatePDFContent env doc r
  = mkDoc (size doc) (margin doc)
      (calls doc
       ++ calls (generatePDFContent env (new_PDFDocument "A4" 50) r)).
Proof.
  assert (H : adds_content (fun d => generatePDFContent env d r)).
  { unfold generatePDFContent.
    repeat first
      [ apply adds_content_header
      | apply (adds_content_compose _ (summary_section _));
          [|apply adds_content_summary_section]
      | apply (adds_content_compose _ (experience_section env _));
          [|apply adds_content_experience_section]
      | apply (adds_content_compose _ (education_section _));
          [|apply adds_content_education_section]
      | apply (adds_content_compose _ (skills_section _));
          [|apply adds_content_skills_section]
      | apply (adds_content_compose _ (projects_section _));
          [|apply adds_content_projects_section]
      | apply (adds_content_compose _ (certifications_section env _));
          [|apply adds_content_certifications_section] ]. }
  apply H.
Qed.

(** The content of a document is the content of its seven parts one
    after the other, always in this order: header, summary, experience,
    education, skills, projects, certifications; each part is what it
    would be on its own. *)
Theorem sections_in_fixed_order (env : Env) (r : Resume.t) :
  content (fun doc => generatePDFContent env doc r)
  = content (header (Resume.personalInfo r))
    ++ content (summary_section (Resume.personalInfo r))
    ++ content (experience_section env (Resume.experience r))
    ++ content (education_section (Resume.education r))
    ++ content (skills_section (Resume.skills r))
    ++ content (projects_section (Resume.projects r))
    ++ content (certifications_section env (Resume.certifications r)).
Proof.
  unfold content at 1, generatePDFContent.
  rewrite (adds_content_certifications_section env),
    (adds_content_projects_section), (adds_content_skills_section),
    (adds_content_education_section),
    (adds_content_experience_section env), (adds_content_summary_section).
  cbn [calls].
  change (calls (header (Resume.personalInfo r) (new_PDFDocument "A4" 50)))
    with (content (header (Resume.personalInfo r))).
  now rewrite <- !app_assoc.
Qed.

Lemma content_titled_forEach {A} (title : string) (l : list A) body :
  (forall x, adds_content (body x)) ->
  content (fun doc =>
             forEach l body
               (do_text (JVal title)
                  (do_font "Helvetica-Bold" (do_fontSize 14 doc))))
  = [fontSize 14; font "Helvetica-Bold"; text (JVal title) None]
    ++ flat_map (fun x => content (body x)) l.
Proof.
  intros Hb.
  rewrite (content_compose
             (fun doc => do_text (JVal title)
                           (do_font "Helvetica-Bold" (do_fontSize 14 doc)))
             (forEach l body)).
  - now rewrite (proj2 (content_forEach l body Hb)).
  - unfold do_text, do_font, do_fontSize.
    apply (adds_content_compose _ (invoke _)); [|apply adds_content_invoke].
    apply (adds_content_compose _ (invoke _)); apply adds_content_invoke.
  - now apply adds_content_forEach.
Qed.

(** Entries are rendered in the order of the array, one block per entry:
    a non-empty experience, education, projects or certifications array
    gives its title followed by the blocks of its entries in input order,
    each block being what the entry gives on its own; an empty array
    gives nothing. *)
Theorem entries_in_input_order (env : Env) :
  (forall l : list Experience.t,
     content (experience_section env l)
     = match l with
       | [] => []
       | _ =>
           [fontSize 14; font "Helvetica-Bold";
            text (JVal "Professional Experience") None]
           ++ flat_map (fun e => content (experience_entry env e)) l
       end)
  /\ (forall l : list Education.t,
        content (education_section l)
        = match l with
          | [] => []
          | _ =>
              [fontSize 14; font "Helvetica-Bold";
               text (JVal "Education") None]
              ++ flat_map (fun e => content (education_entry e)) l
          end)
  /\ (forall l : list Project.t,
        content (projects_section l)
        = match l with
          | [] => []
          | _ =>
              [fontSize 14; font "Helvetica-Bold";
               text (JVal "Projects") None]
              ++ flat_map (fun p => content (project_entry p)) l
          end)
  /\ (forall l : list Certification.t,
        content (certifications_section env l)
        = match l with
          | [] => []
          | _ =>
              [fontSize 14; font "Helvetica-Bold";
               text (JVal "Certifications") None]
              ++ flat_map (fun c => content (certification_entry env c)) l
          end).
Proof.
  repeat split; intros [|x l]; try reflexivity.
  - apply (content_titled_forEach "Professional Experience" (x :: l)).
    apply adds_content_experience_entry.
  - apply (content_titled_forEach "Education" (x :: l)).
    apply adds_content_education_entry.
  - apply (content_titled_forEach "Projects" (x :: l)).
    apply adds_content_project_entry.
  - apply (content_titled_forEach "Certifications" (x :: l)).
    apply adds_content_certification_entry.
Qed.

Lemma calls_forEach_invoke {A} (g : A -> call) (l : list A)
    (doc : PDFDocument) :
  calls (forEach l (fun x => invoke (g x)) doc) = calls doc ++ map g l.
Proof.
  unfold forEach. revert doc.
  induction l as [|x l IH]; intros doc; simpl.
  - now rewrite app_nil_r.
  - rewrite IH. simpl. now rewrite <- app_assoc.
Qed.

(** The whole block of an experience entry: the title line and the date
    line, the description when it is a non-empty string, one bullet line
    per achievement in the order of the array, and the closing
    [moveDown]. *)
Theorem experience_entry_content (env : Env) (e : Experience.t) :
  content (experience_entry env e)
  = [fontSize 12; font "Helvetica-Bold";
     text (JVal (str_of (Experience.position e) +:+ " at "
                 +:+ str_of (Experience.company e))) None;
     fontSize 10; font "Helvetica";
     text (JVal (experience_dates env e)) None]
    ++ (if truthy_str (Experience.description e)
        then [text (Experience.description e) None] else [])
    ++ map (fun achievement => text (JVal (bullet +:+ achievement)) None)
         (Experience.achievements e)
    ++ [moveDown (3 # 10)].
Proof.
  unfold content, experience_entry, when, do_moveDown, do_text.
  destruct (Experience.achievements e) as [|a l] eqn:Hach.
  - destruct (truthy_str (Experience.description e)); reflexivity.
  - change (non_empty (a :: l)) with true. cbn [calls invoke].
    rewrite calls_forEach_invoke.
    destruct (truthy_str (Experience.description e)); simpl;
      now rewrite <- ?app_assoc.
Qed.

(** The body font is set only inside the first optional line of two
    blocks.  When the technical list is empty, the skills section has no
    [fontSize] or [font] call after its title, so the lines for soft
    skills and languages are written in the title's 14 bold; when a
    project has no description, its technologies line is written in the
    12 bold of the project name. *)
Theorem body_font_not_set (sk : Skills.t) (p : Project.t) :
  (Skills.technical sk = [] ->
   content (skills_section (JVal sk))
   = [fontSize 14; font "Helvetica-Bold"; text (JVal "Skills") None]
     ++ (if non_empty (Skills.soft sk)
         then [text (JVal ("Soft Skills: " +:+ join ", " (Skills.soft sk)))
                 None]
         else [])
     ++ (if non_empty (Skills.languages sk)
         then [text (JVal ("Languages: "
                           +:+ join ", " (Skills.languages sk))) None]
         else [])
     ++ [moveDown (5 # 10)])
  /\ (truthy_str (Project.description p) = false ->
      content (project_entry p)
      = [fontSize 12; font "Helvetica-Bold"; text (Project.name p) None]
        ++ (if non_empty (Project.technologies p)
            then [text (JVal ("Technologies: "
                              +:+ join ", " (Project.technologies p))) None]
            else [])
        ++ [moveDown (3 # 10)]).
Proof.
  split.
  - intros Htech. unfold content, skills_section, skills_body, when.
    rewrite Htech. simpl.
    destruct (non_empty (Skills.soft sk)), (non_empty (Skills.languages sk));
      reflexivity.
  - intros Hdesc. unfold content, project_entry, when. rewrite Hdesc.
    destruct (non_empty (Project.technologies p)); reflexivity.
Qed.

Lemma body_font_not_set_witness :
  texts_at 14 12
    (content (skills_section (JVal (Skills.mk [] ["Mentoring"] []))))
  = [JVal "Skills"; JVal "Soft Skills: Mentoring"].
Proof.
  rewrite (proj1 (body_font_not_set (Skills.mk [] ["Mentoring"] [])
                    (Project.mk JUndefined JUndefined [] JUndefined
                       JUndefined JUndefined)) eq_refl).
  reflexivity.
Defined.

(* ===================================================================== *)
(** ** The resume schema: further properties *)
(* ===================================================================== *)

Lemma concat_imap_nil_intro {A B} (f : nat -> A -> list B) (l : list A) :
  (forall i x, In x l -> f i x = []) -> concat (imap f l) = [].
Proof.
  revert f. induction l as [|y l IH]; intros f Hall; simpl.
  - reflexivity.
  - rewrite (Hall 0%nat y (or_introl eq_refl)). simpl.
    apply IH. intros i x Hx. apply (Hall (S i) x). now right.
Qed.

Lemma In_concat_imap {A B} (f : nat -> A -> list B) (l : list A)
    (i : nat) (x : A) (y : B) :
  l !! i = Some x -> In y (f i x) -> In y (concat (imap f l)).
Proof.
  revert f i. induction l as [|z l IH]; intros f i Hl Hy.
  - discriminate.
  - simpl. apply in_or_app. destruct i as [|i]; simpl in Hl.
    + injection Hl as ->. now left.
    + right. apply (IH (f ∘ S) i Hl Hy).
Qed.

Lemma required_string_ok (p : string) (v : jsval string) :
  non_empty_string v -> Resume.required_string p v = [].
Proof.
  intros H. apply checkRequired_string_spec in H.
  unfold Resume.required_string. now rewrite H.
Qed.

Lemma required_string_missing (p : string) (v : jsval string) :
  ~ non_empty_string v ->
  Resume.required_string p v = [Resume.mkError p Resume.Required].
Proof.
  intros H. unfold Resume.required_string.
  destruct (Resume.checkRequired_string v) eqn:Hc; [|reflexivity].
  apply checkRequired_string_spec in Hc. contradiction.
Qed.

Lemma required_present_nil {A} (p : string) (v : jsval A) :
  Resume.required_present p v = [] <-> exists a, v = JVal a.
Proof.
  unfold Resume.required_present. destruct v as [| |a]; simpl.
  - split; [discriminate | intros [a H]; discriminate].
  - split; [discriminate | intros [a H]; discriminate].
  - split; [eauto | reflexivity].
Qed.

Lemma enum_string_nil (p : string) (values : list string)
    (v : jsval string) :
  Resume.enum_string p values v = []
  <-> match v with JVal t => In t values | _ => True end.
Proof.
  unfold Resume.enum_string. destruct v as [| |t]; try tauto.
  destruct (existsb (String.eqb t) values) eqn:Hex.
  - split; [intros _ | reflexivity].
    apply existsb_exists in Hex. destruct Hex as (x & Hx & Heq).
    apply String.eqb_eq in Heq. now subst.
  - split; [discriminate|]. intros Hin. exfalso.
    assert (Htrue : existsb (String.eqb t) values = true).
    { apply existsb_exists. exists t. split; [exact Hin|].
      apply String.eqb_refl. }
    congruence.
Qed.

(** The documents the schema accepts: validation finds no error exactly
    when the owner is there, every required string is a non-empty string,
    every experience and education entry has a start date, and the
    template is absent, null or one of the four names of the enum. *)
Theorem validateSync_accepts_iff (r : Resume.t) :
  Resume.validateSync r = []
  <-> (exists u, Resume.userId r = JVal u)
      /\ Forall non_empty_string (required_strings r)
      /\ Forall (fun e => exists t, Experience.startDate e = JVal t)
           (Resume.experience r)
      /\ Forall (fun e => exists t, Education.startDate e = JVal t)
           (Resume.education r)
      /\ match Resume.template r with
         | JVal t => In t Resume.template_enum
         | _ => True
         end.
Proof.
  split.
  - intros Hnil.
    assert (Hstrings := fun v => validateSync_required_strings r v Hnil).
    unfold Resume.validateSync in Hnil.
    apply app_eq_nil in Hnil as [Huser Hnil].
    apply app_eq_nil in Hnil as [_ Hnil].
    apply app_eq_nil in Hnil as [Hexp Hnil].
    apply app_eq_nil in Hnil as [Hedu Hnil].
    apply app_eq_nil in Hnil as [_ Hnil].
    apply app_eq_nil in Hnil as [_ Htpl].
    split; [now apply (required_present_nil "userId")|].
    split; [now apply List.Forall_forall|].
    split; [|split].
    + apply List.Forall_forall. intros e He.
      destruct (concat_imap_nil _ _ e Hexp He) as [i Hi].
      unfold Resume.validate_experience in Hi.
      apply app_eq_nil in Hi as [_ Hi]. apply app_eq_nil in Hi as [_ Hi].
      now apply required_present_nil in Hi.
    + apply List.Forall_forall. intros e He.
      destruct (concat_imap_nil _ _ e Hedu He) as [i Hi].
      unfold Resume.validate_education in Hi.
      apply app_eq_nil in Hi as [_ Hi]. apply app_eq_nil in Hi as [_ Hi].
      now apply required_present_nil in Hi.
    + now apply enum_string_nil in Htpl.
  - intros (Huser & Hstr & Hexp & Hedu & Htpl).
    rewrite List.Forall_forall in Hstr, Hexp, Hedu.
    assert (Hreq : forall p v, In v (required_strings r) ->
                   Resume.required_string p v = []).
    { intros p v Hv. apply required_string_ok. now apply Hstr. }
    unfold required_strings in Hreq.
    unfold Resume.validateSync, Resume.validate_personalInfo.
    rewrite (proj2 (required_present_nil "userId" _) Huser).
    rewrite (proj2 (enum_string_nil _ _ _) Htpl).
    rewrite !Hreq by (simpl; auto).
    rewrite !concat_imap_nil_intro; [reflexivity| | | |].
    + intros i c Hc. unfold Resume.validate_certification.
      apply Hreq. simpl. do 2 right. repeat (apply in_or_app; right).
      now apply in_map.
    + intros i p Hp. unfold Resume.validate_project.
      apply Hreq. simpl. do 2 right. do 2 (apply in_or_app; right).
      apply in_or_app. left. now apply in_map.
    + intros i e He. unfold Resume.validate_education.
      rewrite (proj2 (required_present_nil _ _) (Hedu e He)).
      rewrite !Hreq; [reflexivity| |];
        simpl; do 2 right; apply in_or_app; right; apply in_or_app; left;
        apply in_flat_map; exists e; simpl; auto.
    + intros i e He. unfold Resume.validate_experience.
      rewrite (proj2 (required_present_nil _ _) (Hexp e He)).
      rewrite !Hreq; [reflexivity| |];
        simpl; do 2 right; apply in_or_app; left;
        apply in_flat_map; exists e; simpl; auto.
Qed.

(** Every failing required path of an experience entry is reported, under
    a path that names the position of the entry in the array. *)
Theorem experience_errors_cite_index (r : Resume.t) (i : nat)
    (e : Experience.t) :
  Resume.experience r !! i = Some e ->
  (~ non_empty_string (Experience.company e) ->
   In (Resume.mkError (Resume.sub_path "experience" i "company")
         Resume.Required) (Resume.validateSync r))
  /\ (~ non_empty_string (Experience.position e) ->
      In (Resume.mkError (Resume.sub_path "experience" i "position")
            Resume.Required) (Resume.validateSync r))
  /\ ((forall t, Experience.startDate e <> JVal t) ->
      In (Resume.mkError (Resume.sub_path "experience" i "startDate")
            Resume.Required) (Resume.validateSync r)).
Proof.
  intros Hl.
  assert (Hlift : forall err, In err (Resume.validate_experience i e) ->
                  In err (Resume.validateSync r)).
  { intros err Herr. unfold Resume.validateSync.
    apply in_or_app. right. apply in_or_app. right. apply in_or_app. left.
    exact (In_concat_imap _ _ i e err Hl Herr). }
  repeat split; intros Hbad; apply Hlift; unfold Resume.validate_experience.
  - rewrite (required_string_missing _ _ Hbad). now left.
  - apply in_or_app. right.
    rewrite (required_string_missing _ _ Hbad). now left.
  - do 2 (apply in_or_app; right).
    unfold Resume.required_present.
    destruct (Experience.startDate e) as [| |t]; simpl; auto.
    now destruct (Hbad t).
Qed.

Lemma experience_errors_cite_index_witness :
  In (Resume.mkError "experience.1.company" Resume.Required)
     (Resume.validateSync
        (Resume.set_experience
           [Sample.acme;
            Experience.mk (JVal "") (JVal "Engineer") (JVal Sample.jan_2020)
              JUndefined JUndefined JUndefined [] []]
           Sample.jane)).
Proof.
  apply (proj1 (experience_errors_cite_index
                  (Resume.set_experience
                     [Sample.acme;
                      Experience.mk (JVal "") (JVal "Engineer")
                        (JVal Sample.jan_2020)
                        JUndefined JUndefined JUndefined [] []]
                     Sample.jane)
                  1%nat _ eq_refl)).
  intros (s & [= <-] & Hs). now apply Hs.
Defined.

Lemma imap_map {A B C} (f : nat -> B -> C) (g : A -> B) (l : list A) :
  imap f (map g l) = imap (fun i x => f i (g x)) l.
Proof.
  revert f. induction l as [|x l IH]; intros f; simpl; [reflexivity|].
  f_equal. apply IH.
Qed.

(** Filling in the defaults changes nothing for validation (the same
    errors before and after), and filling them in twice is the same as
    once. *)
Theorem defaults_keep_validation (r : Resume.t) :
  Resume.validateSync (Resume.apply_defaults r) = Resume.validateSync r
  /\ Resume.apply_defaults (Resume.apply_defaults r)
     = Resume.apply_defaults r.
Proof.
  split.
  - unfold Resume.validateSync, Resume.apply_defaults. simpl.
    rewrite imap_map.
    assert (Htpl : forall t,
              Resume.enum_string "template" Resume.template_enum
                (Resume.default_to "modern" t)
              = Resume.enum_string "template" Resume.template_enum t).
    { intros [| |t]; reflexivity. }
    rewrite Htpl. reflexivity.
  - unfold Resume.apply_defaults. simpl. rewrite map_map.
    f_equal.
    + apply map_ext. intros e. unfold Resume.experience_defaults. simpl.
      destruct (Experience.current e); reflexivity.
    + destruct (Resume.template r); reflexivity.
    + destruct (Resume.aiGenerated r); reflexivity.
    + destruct (Resume.isActive r); reflexivity.
Qed.

(* ===================================================================== *)
(** ** Regular expressions: the matcher decides the language *)
(* ===================================================================== *)

Section RegexLemmas.

Import Utf16 Regex.

Lemma lang_Void s : ~ lang Void s.
Proof. intros H. inversion H. Qed.

Lemma lang_Eps s : lang Eps s <-> s = [].
Proof. split; [intros H; now inversion H | intros ->; constructor]. Qed.

Lemma lang_Class p s : lang (Class p) s <-> exists c, s = [c] /\ p c = true.
Proof.
  split.
  - intros H. inversion H; subst. eauto.
  - intros (c & -> & Hc). now constructor.
Qed.

Lemma lang_Cat a b s :
  lang (Cat a b) s <-> exists s1 s2, s = s1 ++ s2 /\ lang a s1 /\ lang b s2.
Proof.
  split.
  - intros H. inversion H; subst. eauto.
  - intros (s1 & s2 & -> & Ha & Hb). now constructor.
Qed.

Lemma lang_Alt a b s : lang (Alt a b) s <-> lang a s \/ lang b s.
Proof.
  split.
  - intros H. inversion H; subst; auto.
  - intros [H|H]; [now apply lang_alt_l | now apply lang_alt_r].
Qed.

Lemma lang_cat a b s : lang (cat a b) s <-> lang (Cat a b) s.
Proof.
  destruct a; simpl; try reflexivity.
  - split; [intros H; now apply lang_Void in H|].
    intros H. apply lang_Cat in H. destruct H as (s1 & s2 & _ & H & _).
    now apply lang_Void in H.
  - rewrite lang_Cat. split.
    + intros H. exists [], s. repeat split; [constructor | exact H].
    + intros (s1 & s2 & -> & H1 & H2). apply lang_Eps in H1. now subst.
Qed.

Lemma lang_alt a b s : lang (alt a b) s <-> lang (Alt a b) s.
Proof.
  rewrite lang_Alt.
  destruct a, b; simpl; rewrite ?lang_Alt;
    try reflexivity;
    try (split; [auto | intros [H|H]; auto; now apply lang_Void in H]).
Qed.

Lemma nullable_spec r : nullable r = true <-> lang r [].
Proof.
  induction r as [| |p|a IHa b IHb|a IHa b IHb|a IHa]; simpl.
  - split; [discriminate | intros H; now apply lang_Void in H].
  - split; [constructor | reflexivity].
  - split; [discriminate|]. intros H. apply lang_Class in H.
    destruct H as (c & H & _). discriminate.
  - rewrite andb_true_iff, IHa, IHb, lang_Cat. split.
    + intros [Ha Hb]. exists [], []. auto.
    + intros (s1 & s2 & Heq & Ha & Hb). symmetry in Heq.
      apply app_eq_nil in Heq. destruct Heq as [-> ->]. auto.
  - rewrite orb_true_iff, IHa, IHb, lang_Alt. reflexivity.
  - split; [constructor | reflexivity].
Qed.

Lemma lang_Star_cons a c s :
  lang (Star a) (c :: s) <->
  exists s1 s2, s = s1 ++ s2 /\ lang a (c :: s1) /\ lang (Star a) s2.
Proof.
  split.
  - intros H. remember (Star a) as r eqn:Hr. remember (c :: s) as cs eqn:Hcs.
    revert s Hcs.
    induction H as [| | | | | |a' s1 s2 H1 _ H2 IH2]; try discriminate.
    injection Hr as ->. intros s Hcs.
    destruct s1 as [|c1 s1]; simpl in Hcs.
    + now apply IH2.
    + injection Hcs as -> <-. eauto.
  - intros (s1 & s2 & -> & H1 & H2).
    change (c :: s1 ++ s2) with ((c :: s1) ++ s2). now constructor.
Qed.

Lemma deriv_spec c r s : lang (deriv c r) s <-> lang r (c :: s).
Proof.
  revert s.
  induction r as [| |p|a IHa b IHb|a IHa b IHb|a IHa]; intros s; simpl.
  - split; intros H; now apply lang_Void in H.
  - split; intros H; [now apply lang_Void in H|].
    apply lang_Eps in H. discriminate.
  - rewrite lang_Class. destruct (p c) eqn:Hp.
    + rewrite lang_Eps. split.
      * intros ->. eauto.
      * intros (c' & [= <- <-] & _). reflexivity.
    + split; [intros H; now apply lang_Void in H|].
      intros (c' & [= ? ?] & Hc). subst. congruence.
  - assert (Hcat : lang (cat (deriv c a) b) s
                   <-> exists s1 s2, s = s1 ++ s2
                       /\ lang a (c :: s1) /\ lang b s2).
    { rewrite lang_cat, lang_Cat. split.
      - intros (s1 & s2 & -> & H1 & H2). apply IHa in H1. eauto.
      - intros (s1 & s2 & -> & H1 & H2). apply IHa in H1. eauto. }
    rewrite lang_Cat. destruct (nullable a) eqn:Hn.
    + rewrite lang_alt, lang_Alt, Hcat, IHb. split.
      * intros [(s1 & s2 & -> & H1 & H2)|Hb].
        -- exists (c :: s1), s2. auto.
        -- exists [], (c :: s). apply nullable_spec in Hn. auto.
      * intros (s1 & s2 & Heq & H1 & H2). destruct s1 as [|c1 s1].
        -- simpl in Heq. subst. now right.
        -- injection Heq as <- ->. left. eauto.
    + rewrite Hcat. split.
      * intros (s1 & s2 & -> & H1 & H2). exists (c :: s1), s2. auto.
      * intros (s1 & s2 & Heq & H1 & H2). destruct s1 as [|c1 s1].
        -- apply nullable_spec in H1. congruence.
        -- injection Heq as <- ->. eauto.
  - rewrite lang_alt, !lang_Alt, IHa, IHb. reflexivity.
  - rewrite lang_cat, lang_Cat, lang_Star_cons. split.
    + intros (s1 & s2 & -> & H1 & H2). apply IHa in H1. eauto.
    + intros (s1 & s2 & -> & H1 & H2). apply IHa in H1. eauto.
Qed.

(** The matcher accepts exactly the strings of the pattern. *)
Lemma test_spec r s : test r s = true <-> lang r s.
Proof.
  revert r. induction s as [|c s IH]; intros r; simpl.
  - apply nullable_spec.
  - rewrite IH. apply deriv_spec.
Qed.

Lemma lang_classes_within P r s :
  classes_within P r -> lang r s -> Forall P s.
Proof.
  intros Hr H. induction H; simpl in Hr.
  - constructor.
  - constructor; [now apply Hr | constructor].
  - destruct Hr. apply Forall_app. auto.
  - destruct Hr. auto.
  - destruct Hr. auto.
  - constructor.
  - apply Forall_app. auto.
Qed.

(** A non-empty repetition ends with one more string of the repeated
    pattern. *)
Lemma lang_Star_last a s :
  lang (Star a) s -> s = [] \/ exists pre last,
    s = pre ++ last /\ lang (Star a) pre /\ lang a last.
Proof.
  intros H. remember (Star a) as r eqn:Hr.
  induction H as [| | | | | |a' s1 s2 H1 _ H2 IH2]; try discriminate.
  - now left.
  - injection Hr as ->. right.
    destruct (IH2 eq_refl) as [->|(pre & last & -> & Hpre & Hlast)].
    + exists [], s1. rewrite app_nil_r. repeat split; [constructor | exact H1].
    + exists (s1 ++ pre), last. rewrite app_assoc.
      repeat split; [now constructor | exact Hlast].
Qed.

Lemma lang_Plus_last a s :
  lang (Plus a) s -> exists pre last,
    s = pre ++ last /\ lang (Star a) pre /\ lang a last.
Proof.
  unfold Plus. intros H. apply lang_Cat in H.
  destruct H as (s1 & s2 & -> & H1 & H2).
  destruct (lang_Star_last a s2 H2) as [->|(pre & last & -> & Hpre & Hlast)].
  - exists [], s1. rewrite app_nil_r. repeat split; [constructor | exact H1].
  - exists (s1 ++ pre), last. rewrite app_assoc.
    repeat split; [now constructor | exact Hlast].
Qed.

End RegexLemmas.

(* ===================================================================== *)
(** ** The user schema: properties *)
(* ===================================================================== *)

Section UserLemmas.

Import Utf16 Regex.

Lemma classes_within_words : classes_within User.address_char User.words.
Proof.
  unfold User.address_char. simpl. repeat split; auto; intros c Hc.
  apply orb_true_iff in Hc. destruct Hc as [Hc|Hc];
    apply N.eqb_eq in Hc; auto.
Qed.

Lemma classes_within_suffix :
  classes_within User.address_char User.suffix.
Proof.
  unfold User.address_char. simpl. repeat split; auto; intros c Hc.
  apply N.eqb_eq in Hc. auto.
Qed.

Lemma lang_word s :
  lang User.word s <-> exists c, s = [c] /\ is_word c = true.
Proof. apply lang_Class. Qed.

Lemma lang_words_non_empty s : lang User.words s -> s <> [].
Proof.
  unfold User.words, Plus. intros H.
  apply lang_Cat in H. destruct H as (s1 & s2 & -> & H1 & _).
  apply lang_Cat in H1. destruct H1 as (s3 & s4 & -> & H3 & _).
  apply lang_word in H3. destruct H3 as (c & -> & _). discriminate.
Qed.

Lemma lang_suffix s :
  lang User.suffix s ->
  exists tld, s = 46%N :: tld
    /\ Forall (fun c => is_word c = true) tld
    /\ (length tld = 2%nat \/ length tld = 3%nat).
Proof.
  unfold User.suffix, Opt. intros H.
  apply lang_Cat in H. destruct H as (d & s1 & -> & Hd & H).
  apply lang_Class in Hd. destruct Hd as (c0 & -> & Hc0).
  apply N.eqb_eq in Hc0. subst c0.
  apply lang_Cat in H. destruct H as (w1 & s2 & -> & Hw1 & H).
  apply lang_word in Hw1. destruct Hw1 as (c1 & -> & Hc1).
  apply lang_Cat in H. destruct H as (w2 & s3 & -> & Hw2 & H).
  apply lang_word in Hw2. destruct Hw2 as (c2 & -> & Hc2).
  apply lang_Alt in H. destruct H as [H|H].
  - apply lang_Eps in H. subst. exists [c1; c2]. repeat split; auto.
  - apply lang_word in H. destruct H as (c3 & -> & Hc3).
    exists [c1; c2; c3]. repeat split; auto.
Qed.

(** The strings of the pattern: a local part, the at sign, a domain, a
    dot and a last label of two or three word characters; local part and
    domain are not empty and hold only word characters, dots and
    dashes. *)
Lemma email_pattern_shape s :
  lang User.email_pattern s ->
  exists local domain tld,
    s = local ++ [64%N] ++ domain ++ [46%N] ++ tld
    /\ local <> [] /\ domain <> []
    /\ Forall User.address_char local /\ Forall User.address_char domain
    /\ Forall (fun c => is_word c = true) tld
    /\ (length tld = 2%nat \/ length tld = 3%nat).
Proof.
  unfold User.email_pattern. intros H.
  apply lang_Cat in H. destruct H as (l & s1 & -> & Hl & H).
  apply lang_Cat in H. destruct H as (a & s2 & -> & Ha & H).
  apply lang_Class in Ha. destruct Ha as (c & -> & Hc).
  apply N.eqb_eq in Hc. subst c.
  apply lang_Cat in H. destruct H as (d & x & -> & Hd & H).
  apply lang_Plus_last in H. destruct H as (pre & last & -> & Hpre & Hlast).
  apply lang_suffix in Hlast. destruct Hlast as (tld & -> & Htld & Hlen).
  exists l, (d ++ pre), tld. repeat split; auto.
  - simpl. now rewrite <- app_assoc.
  - now apply lang_words_non_empty.
  - apply lang_words_non_empty in Hd. destruct d; [congruence | discriminate].
  - apply (lang_classes_within User.address_char _ _ classes_within_words Hl).
  - apply Forall_app. split.
    + apply (lang_classes_within User.address_char _ _ classes_within_words Hd).
    + apply (lang_classes_within User.address_char (Star User.suffix));
        [apply classes_within_suffix | exact Hpre].
Qed.

Lemma validate_path_nil p v second :
  User.validate_path p v second = []
  <-> exists s, v = JVal s /\ s <> [] /\ second s = None.
Proof.
  unfold User.validate_path, User.checkRequired.
  destruct v as [| |s]; simpl.
  - split; [discriminate | intros (s & H & _); discriminate].
  - split; [discriminate | intros (s & H & _); discriminate].
  - destruct s as [|c s]; simpl.
    + split; [discriminate | intros (s & [= <-] & Hs & _); congruence].
    + destruct (second (c :: s)) eqn:Hsec.
      * split; [discriminate|]. intros (s' & [= <-] & _ & H). congruence.
      * split; [intros _; eexists; repeat split; [discriminate | exact Hsec]
               | reflexivity].
Qed.

Lemma in_enum_None values s :
  User.in_enum values s = None <-> In s values.
Proof.
  unfold User.in_enum.
  destruct (existsb (User.ustring_eqb s) values) eqn:Hex.
  - split; [intros _ | reflexivity].
    apply existsb_exists in Hex. destruct Hex as (x & Hx & Heq).
    unfold User.ustring_eqb in Heq. apply bool_decide_eq_true in Heq.
    now subst.
  - split; [discriminate|]. intros Hin. exfalso.
    assert (Htrue : existsb (User.ustring_eqb s) values = true).
    { apply existsb_exists. exists s. split; [exact Hin|].
      unfold User.ustring_eqb. now apply bool_decide_eq_true. }
    congruence.
Qed.

Lemma email_pattern_not_empty : ~ lang User.email_pattern [].
Proof. intros H. apply nullable_spec in H. discriminate. Qed.

Lemma validate_email_nil (toLowerCase : ustring -> ustring) (u : User.t) :
  (exists s, User.on_string toLowerCase (User.email u) = JVal s /\ s <> []
             /\ User.matches_pattern User.email_pattern s = None)
  <-> exists s, User.email u = JVal s
        /\ lang User.email_pattern (toLowerCase s).
Proof.
  unfold User.matches_pattern. destruct (User.email u) as [| |s]; simpl.
  - split; intros (s & H & _); discriminate.
  - split; intros (s & H & _); discriminate.
  - split.
    + intros (s' & [= <-] & _ & Hm). exists s. split; [reflexivity|].
      apply test_spec.
      destruct (test User.email_pattern (toLowerCase s));
        [reflexivity | discriminate].
    + intros (s' & [= <-] & Hl). exists (toLowerCase s).
      split; [reflexivity|]. split.
      * intros Hnil. rewrite Hnil in Hl.
        now apply email_pattern_not_empty in Hl.
      * apply test_spec in Hl. now rewrite Hl.
Qed.

(** The registrations the user schema accepts.  Validation of the
    document built from the input finds no error exactly when the name
    has between 1 and 50 code units once trimmed, the address in lower
    case is a string of the pattern, the password has at least 6 code
    units, and the disability type is one of the seven values. *)
Theorem user_accepted_iff (toLowerCase : ustring -> ustring) (u : User.t) :
  User.validateSync (User.construct toLowerCase u) = []
  <-> (exists s, User.name u = JVal s
         /\ (1 <= length (trim s) <= 50)%nat)
      /\ (exists s, User.email u = JVal s
            /\ lang User.email_pattern (toLowerCase s))
      /\ (exists s, User.password u = JVal s /\ (6 <= length s)%nat)
      /\ (exists s, User.disabilityType u = JVal s
            /\ In s User.disabilityType_enum).
Proof.
  unfold User.validateSync.
  assert (Happ : forall a b c d : list User.ValidatorError,
            a ++ b ++ c ++ d = []
            <-> a = [] /\ b = [] /\ c = [] /\ d = []).
  { intros a b c d. split.
    - intros H. apply app_eq_nil in H as [-> H].
      apply app_eq_nil in H as [-> H]. apply app_eq_nil in H as [-> ->].
      repeat split.
    - intros (-> & -> & -> & ->). reflexivity. }
  rewrite Happ, !validate_path_nil. simpl.
  assert (Hname :
    (exists s, User.on_string trim (User.name u) = JVal s /\ s <> []
               /\ User.maxlength 50 s = None)
    <-> exists s, User.name u = JVal s /\ (1 <= length (trim s) <= 50)%nat).
  { unfold User.maxlength. destruct (User.name u) as [| |s]; simpl.
    - split; intros (s & H & _); discriminate.
    - split; intros (s & H & _); discriminate.
    - split.
      + intros (s' & [= <-] & Hne & Hmax). exists s. split; [reflexivity|].
        destruct (Nat.leb_spec (length (trim s)) 50); [|discriminate].
        destruct (trim s); [congruence | simpl in *; lia].
      + intros (s' & [= <-] & Hlen). exists (trim s).
        split; [reflexivity|]. split.
        * destruct (trim s); [simpl in Hlen; lia | discriminate].
        * destruct (Nat.leb_spec (length (trim s)) 50); [reflexivity | lia]. }
  assert (Hemail := validate_email_nil toLowerCase u).
  assert (Hpassword :
    (exists s, User.password u = JVal s /\ s <> []
               /\ User.minlength 6 s = None)
    <-> exists s, User.password u = JVal s /\ (6 <= length s)%nat).
  { unfold User.minlength. split.
    - intros (s & Hs & _ & Hmin). exists s. split; [exact Hs|].
      destruct (Nat.leb_spec 6 (length s)); [assumption | discriminate].
    - intros (s & Hs & Hlen). exists s. split; [exact Hs|]. split.
      + destruct s; [simpl in Hlen; lia | discriminate].
      + destruct (Nat.leb_spec 6 (length s)); [reflexivity | lia]. }
  assert (Hkind :
    (exists s, User.disabilityType u = JVal s /\ s <> []
               /\ User.in_enum User.disabilityType_enum s = None)
    <-> exists s, User.disabilityType u = JVal s
          /\ In s User.disabilityType_enum).
  { split.
    - intros (s & Hs & _ & Hin). exists s. split; [exact Hs|].
      now apply in_enum_None.
    - intros (s & Hs & Hin). exists s. split; [exact Hs|]. split.
      + intros ->. vm_compute in Hin. intuition discriminate.
      + now apply in_enum_None. }
  rewrite Hname, Hemail, Hpassword, Hkind. reflexivity.
Qed.

End UserLemmas.

Section UserTheorems.

Import Utf16 Regex.

Lemma address_char_plain (c : N) :
  User.address_char c -> c <> 64%N /\ is_white_space c = false.
Proof.
  unfold User.address_char, is_word, is_white_space.
  rewrite !orb_true_iff, !andb_true_iff, !N.leb_le, !N.eqb_eq.
  intros H. split; [lia|].
  apply not_true_is_false.
  rewrite !orb_true_iff, !andb_true_iff, !N.leb_le, !N.eqb_eq. lia.
Qed.

(** The address of an accepted registration, as it is stored (in lower
    case), reads local part, at sign, domain, dot, last label: the last
    label has two or three word characters; local part and domain are not
    empty and hold only word characters, dots and dashes, so the address
    has one at sign and no white space. *)
Theorem accepted_email_shape (toLowerCase : ustring -> ustring)
    (u : User.t) :
  User.validateSync (User.construct toLowerCase u) = [] ->
  exists local domain tld,
    User.email (User.construct toLowerCase u)
    = JVal (local ++ [64%N] ++ domain ++ [46%N] ++ tld)
    /\ local <> [] /\ domain <> []
    /\ Forall (fun c => User.address_char c /\ c <> 64%N
                        /\ is_white_space c = false) (local ++ domain)
    /\ Forall (fun c => is_word c = true) tld
    /\ (length tld = 2%nat \/ length tld = 3%nat).
Proof.
  intros Hok. unfold User.validateSync in Hok.
  apply app_eq_nil in Hok as [_ Hok]. apply app_eq_nil in Hok as [Hok _].
  apply validate_path_nil in Hok. simpl in Hok.
  apply validate_email_nil in Hok. destruct Hok as (s & Hs & Hlang).
  apply email_pattern_shape in Hlang.
  destruct Hlang as (l & d & tld & Heq & Hl & Hd & Hla & Hda & Htld & Hlen).
  exists l, d, tld. simpl. rewrite Hs. simpl. rewrite Heq.
  repeat split; auto.
  apply Forall_app. split; eapply Forall_impl; eauto;
    intros c Hc; split; auto; now apply address_char_plain.
Qed.

Lemma accepted_email_shape_witness :
  exists local domain tld,
    User.email (User.construct ascii_lower UserFixture.jane)
    = JVal (local ++ [64%N] ++ domain ++ [46%N] ++ tld)
    /\ (length tld = 2%nat \/ length tld = 3%nat).
Proof.
  destruct (accepted_email_shape ascii_lower UserFixture.jane eq_refl)
    as (l & d & tld & Heq & _ & _ & _ & _ & Hlen).
  exists l, d, tld. split; assumption.
Defined.

Lemma trim_start_white_space (s : ustring) :
  Forall (fun c => is_white_space c = true) s -> trim_start s = [].
Proof.
  induction 1 as [|c s Hc _ IH]; simpl; [reflexivity|]. now rewrite Hc.
Qed.

(** The name is trimmed before it is validated: a name made of white
    space only is rejected with the required error on [name], like a
    missing one. *)
Theorem blank_name_rejected (toLowerCase : ustring -> ustring)
    (u : User.t) (s : ustring) :
  User.name u = JVal s ->
  Forall (fun c => is_white_space c = true) s ->
  In (User.mkError "name" User.Required)
     (User.validateSync (User.construct toLowerCase u)).
Proof.
  intros Hname Hblank. unfold User.validateSync.
  apply in_or_app. left. simpl. rewrite Hname. simpl.
  unfold trim. rewrite (trim_start_white_space s Hblank). now left.
Qed.

Lemma blank_name_rejected_witness :
  In (User.mkError "name" User.Required)
     (User.validateSync (User.construct ascii_lower UserFixture.blank)).
Proof.
  apply (blank_name_rejected ascii_lower UserFixture.blank [32; 9; 32]%N).
  - reflexivity.
  - repeat constructor.
Defined.

(** Jane's registration is accepted: the padding of the name does not
    count, and the address is put in lower case. *)
Example jane_registration :
  User.validateSync (User.construct ascii_lower UserFixture.jane) = []
  /\ User.name (User.construct ascii_lower UserFixture.jane)
     = JVal (of_ascii "Jane Doe")
  /\ User.email (User.construct ascii_lower UserFixture.jane)
     = JVal (of_ascii "jane.doe@example.com").
Proof. vm_compute. repeat split. Qed.

End UserTheorems.

(* ===================================================================== *)
(** ** The PDF route: the answer as a function of the resume *)
(* ===================================================================== *)

Lemma generatePDFContent_adds_content (env : Env) (r : Resume.t) :
  adds_content (fun doc => generatePDFContent env doc r).
Proof.
  unfold generatePDFContent.
  apply (adds_content_compose _ (certifications_section env _));
    [|apply adds_content_certifications_section].
  apply (adds_content_compose _ (projects_section _));
    [|apply adds_content_projects_section].
  apply (adds_content_compose _ (skills_section _));
    [|apply adds_content_skills_section].
  apply (adds_content_compose _ (education_section _));
    [|apply adds_content_education_section].
  apply (adds_content_compose _ (experience_section env _));
    [|apply adds_content_experience_section].
  apply (adds_content_compose _ (summary_section _));
    [|apply adds_content_summary_section].
  apply adds_content_header.
Qed.

Lemma findOne_stored (id user : ObjectId) (c : gmap ObjectId Resume.t)
    (r : Resume.t) :
  c !! id = Some r ->
  Resume.userId r = JVal user ->
  Resume.isActive r = JVal true ->
  findOne (mkFilter id user (Some true)) c = Some r.
Proof. intros Hl Ho Ha. apply findOne_owned_active. auto. Qed.

(** C8: the answer of the PDF route is a function of the resume alone.
    Two requests for the same resume, in any two states and under any two
    ids, get the same answer, and so does a second request made right
    after the first: the same headers and the same calls in the same
    order on a fresh A4 document (or, when the full name cannot go in a
    header, the same 500), with the state left as it was.  The calls
    written for a resume do not depend on what the document held before
    either.  PDFKit lays out pages from the options and the calls, which
    are the same in both runs. *)
Theorem pdf_function_of_resume (env : Env) (id1 id2 user : ObjectId)
    (w1 w2 : World) (r : Resume.t) (doc : PDFDocument) :
  resumes w1 !! id1 = Some r ->
  resumes w2 !! id2 = Some r ->
  Resume.userId r = JVal user ->
  Resume.isActive r = JVal true ->
  let answer :=
    if header_value_ok (content_disposition r) then
      PdfStream
        [("Content-Type", "application/pdf");
         ("Content-Disposition", content_disposition r)]
        (generatePDFContent env (new_PDFDocument "A4" 50) r)
    else
      Json 500
        (error_body
           ("Invalid character in header content [" +:+ dq
            +:+ "Content-Disposition" +:+ dq +:+ "]")) in
  get_resume_pdf env id1 user w1 = (answer, w1)
  /\ get_resume_pdf env id2 user w2 = (answer, w2)
  /\ get_resume_pdf env id1 user (snd (get_resume_pdf env id1 user w1))
     = (answer, w1)
  /\ generatePDFContent env doc r
     = mkDoc (size doc) (margin doc)
         (calls doc
          ++ calls (generatePDFContent env (new_PDFDocument "A4" 50) r)).
Proof.
  intros H1 H2 Ho Ha answer. subst answer.
  assert (Hrun : forall id w, resumes w !! id = Some r ->
            get_resume_pdf env id user w
            = (if header_value_ok (content_disposition r) then
                 PdfStream
                   [("Content-Type", "application/pdf");
                    ("Content-Disposition", content_disposition r)]
                   (generatePDFContent env (new_PDFDocument "A4" 50) r)
               else
                 Json 500
                   (error_body
                      ("Invalid character in header content [" +:+ dq
                       +:+ "Content-Disposition" +:+ dq +:+ "]")), w)).
  { intros id w Hl. unfold get_resume_pdf.
    rewrite (findOne_stored id user _ r Hl Ho Ha).
    destruct (header_value_ok (content_disposition r)); reflexivity. }
  split; [now apply Hrun|]. split; [now apply Hrun|]. split.
  - rewrite (Hrun id1 w1 H1). simpl. now apply Hrun.
  - apply (generatePDFContent_adds_content env r).
Qed.

Lemma pdf_function_of_resume_witness :
  fst (get_resume_pdf Sample.env 1%N 7%N Sample.world)
  = fst (get_resume_pdf Sample.env 1%N 7%N Fixture.world3)
  /\ get_resume_pdf Sample.env 1%N 7%N
       (snd (get_resume_pdf Sample.env 1%N 7%N Sample.world))
     = get_resume_pdf Sample.env 1%N 7%N Sample.world.
Proof.
  destruct (pdf_function_of_resume Sample.env 1%N 1%N 7%N Sample.world
              Fixture.world3 Sample.jane Sample.blank_doc
              eq_refl eq_refl eq_refl eq_refl) as (Ha & Hb & Hc & _).
  split.
  - rewrite Ha, Hb. reflexivity.
  - rewrite Hc, Ha. reflexivity.
Defined.

(** A full name with a line feed cannot go in a header: the PDF route
    answers 500 and writes no document. *)
Example pdf_with_line_feed_in_name :
  fst (get_resume_pdf Sample.env 1%N 7%N
         (mkWorld
            {[ 1%N := Sample.resume_of
                        (PersonalInfo.mk (JVal ("Jane" +:+ nl +:+ "Doe"))
                           (JVal "jane@example.com") JUndefined JUndefined
                           JUndefined JUndefined JUndefined)
                        [] JUndefined [] ]} []))
  = Json 500
      (error_body
         ("Invalid character in header content [" +:+ dq
          +:+ "Content-Disposition" +:+ dq +:+ "]")).
Proof. vm_compute. reflexivity. Qed.

(** The message of a required error inside an array entry names the path
    inside the entry; the key before it is the full path. *)
Example entry_error_message :
  Resume.validation_message "Resume validation failed"
    [Resume.mkError "personalInfo.fullName" Resume.Required;
     Resume.mkError (Resume.sub_path "experience" 1 "company")
       Resume.Required]
  = "Resume validation failed: personalInfo.fullName: Path `personalInfo.fullName` is required., experience.1.company: Path `company` is required.".
Proof. vm_compute. reflexivity. Qed.

(** An update with a value that cannot be cast throws the CastError as it
    is; the update route sends its message. *)
Example update_cast_error_message :
  Resume.update_error_message
    [Resume.mkError "isActive" (Resume.CastError "Cast to Boolean failed")]
  = "Cast to Boolean failed".
Proof. reflexivity. Qed.
